(** * TechDocs addon contexts: providers and hooks of
      [plugins/techdocs-addons/src/context.tsx]

    The module wires two fetch-on-mount providers, one local-state provider
    and five accessor hooks.  Components are embedded as state-passing
    functions: a component takes its props and the hook cells React keeps for
    the mounted instance ([None] on the first render) and returns the element
    it renders together with the cells after the render and its effects. *)

From Stdlib Require Import List String Bool Arith ZArith Lia.
Import ListNotations.
Open Scope string_scope.

Set Implicit Arguments.

(** ** JavaScript values, truthiness and abrupt completion *)
Module JS.

(** The values a promise may be rejected with, or a dependency list may
    hold.  Objects are known by their reference; numbers are the integral
    ones and NaN, which is all that truthiness tells apart. *)
Inductive Value :=
| Undefined
| Null
| Boolean (b : bool)
| Number (n : Z)
| NaN
| String (s : string)
| Object (ref : nat).

(** ECMAScript [ToBoolean]: what [if (x)] and [a && b] test. *)
Definition ToBoolean (v : Value) : bool :=
  match v with
  | Undefined | Null | NaN => false
  | Boolean b => b
  | Number n => negb (n =? 0)%Z
  | String s => negb (s =? "")
  | Object _ => true
  end.

(** [Object.is], the comparison React applies to hook dependencies. *)
Definition Object_is (a b : Value) : bool :=
  match a, b with
  | Undefined, Undefined | Null, Null | NaN, NaN => true
  | Boolean x, Boolean y => Bool.eqb x y
  | Number x, Number y => (x =? y)%Z
  | String x, String y => (x =? y)
  | Object x, Object y => (x =? y)%nat
  | _, _ => false
  end.

(** A call either returns or throws. *)
Inductive Completion (A : Type) :=
| Return (a : A)
| Throw (exn : Value).
Arguments Return {A} a.
Arguments Throw {A} exn.

Definition bind {A B} (c : Completion A) (k : A -> Completion B)
  : Completion B :=
  match c with
  | Return a => k a
  | Throw e => Throw e
  end.

(** [Array.prototype.map] with a callback that may throw: the callback runs
    on the items from left to right and the first exception leaves. *)
Fixpoint Array_map {A B} (f : A -> Completion B) (xs : list A)
  : Completion (list B) :=
  match xs with
  | [] => Return []
  | x :: rest =>
      bind (f x) (fun y =>
      bind (Array_map f rest) (fun ys => Return (y :: ys)))
  end.

(** [Array.prototype.flat()] at its default depth 1, on an array of arrays
    whose items are not arrays themselves. *)
Definition Array_flat {A} (xss : list (list A)) : list A := List.concat xss.

(** [Array.from] of an array-like. *)
Definition Array_from {A} (xs : list A) : list A := xs.

(** The [length] of an array-like, as the number it is. *)
Definition length_of {A} (xs : list A) : Value :=
  Number (Z.of_nat (List.length xs)).

End JS.

Notation "x <- c ;; k" := (JS.bind c (fun x => k))
  (at level 61, c at next level, right associativity).

(** ** [@backstage/catalog-model] *)
Record CompoundEntityRef := {
  kind : string;
  namespace : string;
  name : string
}.

(** ** The DOM a shadow root gives access to *)
Section DOM.
Variable HTMLElement : Type.

(** A static [NodeList]: the matches in document order. *)
Definition NodeList := list HTMLElement.

(** A [ShadowRoot] is used through [querySelectorAll] only, which throws a
    [SyntaxError] on a string that is not a selector. *)
Record ShadowRoot := {
  querySelectorAll : string -> JS.Completion NodeList
}.
End DOM.

(** ** React: state hooks and dependency lists *)
Module React.

(** [SetStateAction<S> = S | ((prevState: S) => S)]. *)
Inductive SetStateAction (S : Type) :=
| Next (s : S)
| Updater (f : S -> S).
Arguments Next {S} s.
Arguments Updater {S} f.

Definition basicStateReducer {S} (state : S) (action : SetStateAction S) : S :=
  match action with
  | Next s => s
  | Updater f => f state
  end.

(** The cell of one [useState] call: the state of the last render and the
    updates dispatched since, oldest first. *)
Record StateHook (S : Type) := {
  memoizedState : S;
  pending : list (SetStateAction S)
}.

(** [useState(initialState)]: the first render stores the initial state,
    a later one runs the pending updates in order. *)
Definition useState {S} (initialState : S) (cell : option (StateHook S))
  : S * StateHook S :=
  match cell with
  | None => (initialState, {| memoizedState := initialState; pending := [] |})
  | Some h =>
      let s := fold_left basicStateReducer (pending h) (memoizedState h) in
      (s, {| memoizedState := s; pending := [] |})
  end.

(** What the setter returned by [useState] does to the cell. *)
Definition dispatchSetState {S} (action : SetStateAction S) (h : StateHook S)
  : StateHook S :=
  {| memoizedState := memoizedState h; pending := pending h ++ [action] |}.

Definition DependencyList := list JS.Value.

(** React compares the two lists item by item over their common length. *)
Fixpoint areHookInputsEqual (nextDeps prevDeps : DependencyList) : bool :=
  match nextDeps, prevDeps with
  | a :: nextDeps', b :: prevDeps' =>
      if JS.Object_is a b then areHookInputsEqual nextDeps' prevDeps' else false
  | _, _ => true
  end.

End React.

(** ** [react-use/lib/useAsync] *)
Module ReactUse.

(** How a promise ends. *)
Inductive Settlement (T : Type) :=
| Fulfilled (v : T)
| Rejected (reason : JS.Value).
Arguments Fulfilled {T} v.
Arguments Rejected {T} reason.

(** [AsyncState<T>]: [None] is a key the object does not have. *)
Record AsyncState (T : Type) := {
  loading : bool;
  error : option JS.Value;
  value : option T
}.

(** One call of the async function: its number, how its promise will end
    and whether it has ended. *)
Record Call (T : Type) := {
  callId : nat;
  outcome : Settlement T;
  settled : bool
}.

(** The cells of [useAsyncFn] under [useAsync]: the state, the call counter,
    the memoized callback with the dependencies it was made for, and the
    calls issued so far. *)
Record AsyncFn (T : Type) := {
  state : AsyncState T;
  lastCallId : nat;
  callback : unit -> Settlement T;
  deps : React.DependencyList;
  calls : list (Call T)
}.

Section UseAsync.
Variable T : Type.

(** [callback()]: a new call number, [loading] raised unless it is up
    already, and the async function called. *)
Definition invoke (h : AsyncFn T) : AsyncFn T :=
  let id := S (lastCallId h) in
  {| state :=
       if loading (state h) then state h
       else {| loading := true;
               error := error (state h);
               value := value (state h) |};
     lastCallId := id;
     callback := callback h;
     deps := deps h;
     calls :=
       calls h
       ++ [{| callId := id; outcome := callback h tt; settled := false |}] |}.

(** [useAsync(fn, deps)].  The first render starts from [{loading: true}]
    and its effect calls [fn]; a later render calls [fn] again only when
    the dependencies differ from those of the memoized callback.  The
    state returned is the one the render sees, before the effect. *)
Definition useAsync (fn : unit -> Settlement T) (ds : React.DependencyList)
    (cell : option (AsyncFn T)) : AsyncState T * AsyncFn T :=
  match cell with
  | None =>
      let h := {| state := {| loading := true; error := None; value := None |};
                  lastCallId := 0;
                  callback := fn;
                  deps := ds;
                  calls := [] |} in
      (state h, invoke h)
  | Some h =>
      if React.areHookInputsEqual ds (deps h) then (state h, h)
      else (state h,
            invoke {| state := state h;
                      lastCallId := lastCallId h;
                      callback := fn;
                      deps := ds;
                      calls := calls h |})
  end.

Definition inFlight (id : nat) (c : Call T) : bool :=
  (callId c =? id)%nat && negb (settled c).

(** The promise of call [id] ends.  A promise ends once; its result is
    stored as [{value, loading: false}] or [{error, loading: false}] when
    the call is the latest one, and dropped otherwise. *)
Definition settle (id : nat) (h : AsyncFn T) : AsyncFn T :=
  match find (inFlight id) (calls h) with
  | None => h
  | Some c =>
      {| state :=
           if (id =? lastCallId h)%nat then
             match outcome c with
             | Fulfilled v =>
                 {| loading := false; error := None; value := Some v |}
             | Rejected e =>
                 {| loading := false; error := Some e; value := None |}
             end
           else state h;
         lastCallId := lastCallId h;
         callback := callback h;
         deps := deps h;
         calls := map (fun c' =>
                         if inFlight id c'
                         then {| callId := callId c';
                                 outcome := outcome c';
                                 settled := true |}
                         else c') (calls h) |}
  end.
End UseAsync.

End ReactUse.

Import React ReactUse.

(** ** [context.tsx] *)
Section Context.
(** The metadata types of [@backstage/plugin-techdocs] are opaque here, as
    are the elements of the page, the components of the application shell
    and the children a provider is given. *)
Variables TechDocsMetadata TechDocsEntityMetadata : Type.
Variable HTMLElement : Type.
Variables Component ReactNode : Type.

(** [useApp()]: the shell and the components it registers. *)
Record AppComponents := { NotFoundErrorPage : Component }.
Record AppContext := { getComponents : AppComponents }.

(** [useApi(techdocsApiRef)]: the two fetches, each a promise that ends one
    way or the other. *)
Record TechDocsApi := {
  getTechDocsMetadata : CompoundEntityRef -> Settlement TechDocsMetadata;
  getEntityMetadata : CompoundEntityRef -> Settlement TechDocsEntityMetadata
}.

(** The three [useState] cells of a mounted [TechDocsReaderPageProvider]. *)
Record ReaderPageHooks := {
  titleHook : StateHook string;
  subtitleHook : StateHook string;
  shadowRootHook : StateHook (option (ShadowRoot HTMLElement))
}.

(** [Dispatch<A>]: a setter acts on the cells of the provider it belongs
    to and returns nothing. *)
Definition Dispatch (A : Type) : Type :=
  A -> ReaderPageHooks -> ReaderPageHooks.

Record TechDocsReaderPageValue := {
  entityName : CompoundEntityRef;
  shadowRoot : option (ShadowRoot HTMLElement);
  setShadowRoot : Dispatch (SetStateAction (option (ShadowRoot HTMLElement)));
  title : string;
  setTitle : Dispatch (SetStateAction string);
  subtitle : string;
  setSubtitle : Dispatch (SetStateAction string)
}.

Definition defaultTechDocsReaderPageValue : TechDocsReaderPageValue :=
  {| title := "";
     setTitle := fun _ hooks => hooks;
     subtitle := "";
     setSubtitle := fun _ hooks => hooks;
     setShadowRoot := fun _ hooks => hooks;
     shadowRoot := None;
     entityName := {| kind := ""; name := ""; namespace := "" |} |}.

(** The value each of the three contexts has at one place of the tree. *)
Record Contexts := {
  TechDocsMetadataContext : option TechDocsMetadata;
  TechDocsEntityContext : option TechDocsEntityMetadata;
  TechDocsReaderPageContext : TechDocsReaderPageValue
}.

(** The three [createContext] calls: the values read where no provider
    encloses the reader. *)
Definition createContext : Contexts :=
  {| TechDocsMetadataContext := None;
     TechDocsEntityContext := None;
     TechDocsReaderPageContext := defaultTechDocsReaderPageValue |}.

(** What a component of this module returns. *)
Inductive Element :=
| Create (component : Component)
| TechDocsMetadataContext_Provider
    (value : option TechDocsMetadata) (children : ReactNode)
| TechDocsEntityContext_Provider
    (value : option TechDocsEntityMetadata) (children : ReactNode)
| TechDocsReaderPageContext_Provider
    (value : TechDocsReaderPageValue) (children : ReactNode).

(** The children an element renders. *)
Definition renderedChildren (e : Element) : list ReactNode :=
  match e with
  | Create _ => []
  | TechDocsMetadataContext_Provider _ children
  | TechDocsEntityContext_Provider _ children
  | TechDocsReaderPageContext_Provider _ children => [children]
  end.

(** The contexts below an element, given those around it. *)
Definition provide (around : Contexts) (e : Element) : Contexts :=
  match e with
  | Create _ => around
  | TechDocsMetadataContext_Provider v _ =>
      {| TechDocsMetadataContext := v;
         TechDocsEntityContext := TechDocsEntityContext around;
         TechDocsReaderPageContext := TechDocsReaderPageContext around |}
  | TechDocsEntityContext_Provider v _ =>
      {| TechDocsMetadataContext := TechDocsMetadataContext around;
         TechDocsEntityContext := v;
         TechDocsReaderPageContext := TechDocsReaderPageContext around |}
  | TechDocsReaderPageContext_Provider v _ =>
      {| TechDocsMetadataContext := TechDocsMetadataContext around;
         TechDocsEntityContext := TechDocsEntityContext around;
         TechDocsReaderPageContext := v |}
  end.

(** The contexts below a chain of enclosing elements, outermost first. *)
Definition contextsUnder (ancestors : list Element) : Contexts :=
  fold_left provide ancestors createContext.

Definition isReaderPageProvider (e : Element) : bool :=
  match e with
  | TechDocsReaderPageContext_Provider _ _ => true
  | _ => false
  end.

Section Providers.
Variable app : AppContext.
Variable techdocsApi : TechDocsApi.

(** [const { value, loading, error } = ...]: a key the state lacks reads
    as [undefined]. *)
Definition errorOf {T} (s : AsyncState T) : JS.Value :=
  match error s with
  | Some e => e
  | None => JS.Undefined
  end.

Definition TechDocsMetadataProvider
    (entityName : CompoundEntityRef) (children : ReactNode)
    (cell : option (AsyncFn TechDocsMetadata))
  : Element * AsyncFn TechDocsMetadata :=
  let NotFoundErrorPage := NotFoundErrorPage (getComponents app) in
  let '(s, cell') :=
    useAsync (fun _ => getTechDocsMetadata techdocsApi entityName) [] cell in
  let value := value s in
  let loading := loading s in
  let error := errorOf s in
  if negb loading && JS.ToBoolean error
  then (Create NotFoundErrorPage, cell')
  else (TechDocsMetadataContext_Provider value children, cell').

Definition TechDocsEntityProvider
    (entityName : CompoundEntityRef) (children : ReactNode)
    (cell : option (AsyncFn TechDocsEntityMetadata))
  : Element * AsyncFn TechDocsEntityMetadata :=
  let NotFoundErrorPage := NotFoundErrorPage (getComponents app) in
  let '(s, cell') :=
    useAsync (fun _ => getEntityMetadata techdocsApi entityName) [] cell in
  let value := value s in
  let loading := loading s in
  let error := errorOf s in
  if negb loading && JS.ToBoolean error
  then (Create NotFoundErrorPage, cell')
  else (TechDocsEntityContext_Provider value children, cell').
End Providers.

Definition useMetadata (ctx : Contexts) : option TechDocsMetadata :=
  TechDocsMetadataContext ctx.

Definition useEntityMetadata (ctx : Contexts) : option TechDocsEntityMetadata :=
  TechDocsEntityContext ctx.

Definition useTechDocsReaderPage (ctx : Contexts) : TechDocsReaderPageValue :=
  TechDocsReaderPageContext ctx.

Definition TechDocsReaderPageProvider
    (entityName : CompoundEntityRef) (children : ReactNode)
    (cell : option ReaderPageHooks) : Element * ReaderPageHooks :=
  let '(title, titleHook') :=
    useState (title defaultTechDocsReaderPageValue)
             (option_map titleHook cell) in
  let setTitle : Dispatch (SetStateAction string) := fun action hooks =>
    {| titleHook := dispatchSetState action (titleHook hooks);
       subtitleHook := subtitleHook hooks;
       shadowRootHook := shadowRootHook hooks |} in
  let '(subtitle, subtitleHook') :=
    useState (subtitle defaultTechDocsReaderPageValue)
             (option_map subtitleHook cell) in
  let setSubtitle : Dispatch (SetStateAction string) := fun action hooks =>
    {| titleHook := titleHook hooks;
       subtitleHook := dispatchSetState action (subtitleHook hooks);
       shadowRootHook := shadowRootHook hooks |} in
  let '(shadowRoot, shadowRootHook') :=
    useState (shadowRoot defaultTechDocsReaderPageValue)
             (option_map shadowRootHook cell) in
  let setShadowRoot
    : Dispatch (SetStateAction (option (ShadowRoot HTMLElement))) :=
    fun action hooks =>
    {| titleHook := titleHook hooks;
       subtitleHook := subtitleHook hooks;
       shadowRootHook := dispatchSetState action (shadowRootHook hooks) |} in
  let value :=
    {| entityName := entityName;
       shadowRoot := shadowRoot;
       setShadowRoot := setShadowRoot;
       title := title;
       setTitle := setTitle;
       subtitle := subtitle;
       setSubtitle := setSubtitle |} in
  (TechDocsReaderPageContext_Provider value children,
   {| titleHook := titleHook';
      subtitleHook := subtitleHook';
      shadowRootHook := shadowRootHook' |}).

Definition useShadowRoot (ctx : Contexts) : option (ShadowRoot HTMLElement) :=
  let shadowRoot := shadowRoot (useTechDocsReaderPage ctx) in
  shadowRoot.

Definition useShadowRootElements (ctx : Contexts) (selectors : list string)
  : JS.Completion (list HTMLElement) :=
  let shadowRoot := useShadowRoot ctx in
  match shadowRoot with
  | None => JS.Return []
  | Some shadowRoot =>
      nodeLists <- JS.Array_map
                     (fun selector => querySelectorAll shadowRoot selector)
                     selectors ;;
      JS.Return
        (JS.Array_flat
           (map (fun nodeList => JS.Array_from nodeList)
                (filter (fun nodeList => JS.ToBoolean (JS.length_of nodeList))
                        nodeLists)))
  end.

(** *** Mounted instances

    What React keeps for a component while it is mounted: the props of the
    last render, the hook cells and the element last rendered. *)
Section Lifecycle.
Variable Cell : Type.
Variable component :
  CompoundEntityRef -> ReactNode -> option Cell -> Element * Cell.

Record Mounted := {
  entityNameProp : CompoundEntityRef;
  childrenProp : ReactNode;
  cells : Cell;
  rendered : Element
}.

Definition render (entityName : CompoundEntityRef) (children : ReactNode)
    (cell : option Cell) : Mounted :=
  let '(element, cell') := component entityName children cell in
  {| entityNameProp := entityName;
     childrenProp := children;
     cells := cell';
     rendered := element |}.

(** The first render. *)
Definition mount (entityName : CompoundEntityRef) (children : ReactNode)
  : Mounted :=
  render entityName children None.

(** The parent renders the component again, with whatever props. *)
Definition rerender (entityName : CompoundEntityRef) (children : ReactNode)
    (m : Mounted) : Mounted :=
  render entityName children (Some (cells m)).

(** A cell changes and the component renders again with its props. *)
Definition update (change : Cell -> Cell) (m : Mounted) : Mounted :=
  render (entityNameProp m) (childrenProp m) (Some (change (cells m))).
End Lifecycle.

(** What can happen to a mounted fetch provider: its parent renders it
    again, or the promise of one of its calls ends. *)
Inductive FetchEvent :=
| Rerender (entityName : CompoundEntityRef) (children : ReactNode)
| Settles (callId : nat).

Definition fetchStep {T}
    (component : CompoundEntityRef -> ReactNode -> option (AsyncFn T) ->
                 Element * AsyncFn T)
    (m : Mounted (AsyncFn T)) (ev : FetchEvent) : Mounted (AsyncFn T) :=
  match ev with
  | Rerender entityName children => rerender component entityName children m
  | Settles id => update component (@settle T id) m
  end.

Definition fetchRun {T}
    (component : CompoundEntityRef -> ReactNode -> option (AsyncFn T) ->
                 Element * AsyncFn T)
    (m : Mounted (AsyncFn T)) (evs : list FetchEvent) : Mounted (AsyncFn T) :=
  fold_left (fetchStep component) evs m.

Definition settles (id : nat) (ev : FetchEvent) : bool :=
  match ev with
  | Settles id' => (id' =? id)%nat
  | Rerender _ _ => false
  end.

(** The phases of a fetch, read off the state [useAsync] returns. *)
Inductive Phase := pending | success | failure.

Definition phase {T} (s : AsyncState T) : Phase :=
  if loading s then pending
  else match error s with
       | Some _ => failure
       | None => success
       end.

(** The moves of the fetch: from pending to one of the two ends. *)
Inductive transition : Phase -> Phase -> Prop :=
| resolves : transition pending success
| rejects : transition pending failure.

(** The shape the two fetch providers share: the body of either with the
    fetch and the context provider left open. *)
Definition fetchOnMountProvider {T} (app : AppContext)
    (fetch : CompoundEntityRef -> Settlement T)
    (Provider : option T -> ReactNode -> Element)
    (entityName : CompoundEntityRef) (children : ReactNode)
    (cell : option (AsyncFn T)) : Element * AsyncFn T :=
  let '(s, cell') := useAsync (fun _ => fetch entityName) [] cell in
  if negb (loading s) && JS.ToBoolean (errorOf s)
  then (Create (NotFoundErrorPage (getComponents app)), cell')
  else (Provider (value s) children, cell').

(** A descendant of a [TechDocsReaderPageProvider] calls one of the setters
    it read from the context. *)
Inductive SetterCall :=
| CallSetTitle (action : SetStateAction string)
| CallSetSubtitle (action : SetStateAction string)
| CallSetShadowRoot (action : SetStateAction (option (ShadowRoot HTMLElement))).

Definition callSetter (v : TechDocsReaderPageValue)
    (hooks : ReaderPageHooks) (call : SetterCall) : ReaderPageHooks :=
  match call with
  | CallSetTitle action => setTitle v action hooks
  | CallSetSubtitle action => setSubtitle v action hooks
  | CallSetShadowRoot action => setShadowRoot v action hooks
  end.

(** The state [settle] stores for the latest call. *)
Definition ended {T} (o : Settlement T) : AsyncState T :=
  match o with
  | Fulfilled v => {| loading := false; error := None; value := Some v |}
  | Rejected e => {| loading := false; error := Some e; value := None |}
  end.

(** The cells of a fetch provider that was mounted with [entityName], by
    whether its one call has ended. *)
Definition cellsOf {T} (fetch : CompoundEntityRef -> Settlement T)
    (entityName : CompoundEntityRef) (over : bool) : AsyncFn T :=
  {| state := if over then ended (fetch entityName)
              else {| loading := true; error := None; value := None |};
     lastCallId := 1;
     callback := fun _ => fetch entityName;
     deps := [];
     calls :=
       [{| callId := 1; outcome := fetch entityName; settled := over |}] |}.

(** What a fetch provider returns for a state and its children. *)
Definition elementOf {T} (app : AppContext)
    (Provider : option T -> ReactNode -> Element)
    (s : AsyncState T) (children : ReactNode) : Element :=
  if negb (loading s) && JS.ToBoolean (errorOf s)
  then Create (NotFoundErrorPage (getComponents app))
  else Provider (value s) children.

(** The mounted instances whose cells and element are those of a fetch
    provider that was mounted with [entityName]. *)
Definition mountedWith {T} (app : AppContext)
    (fetch : CompoundEntityRef -> Settlement T)
    (Provider : option T -> ReactNode -> Element)
    (entityName : CompoundEntityRef) (over : bool)
    (m : Mounted (AsyncFn T)) : Prop :=
  cells m = cellsOf fetch entityName over /\
  rendered m
  = elementOf app Provider (state (cellsOf fetch entityName over))
              (childrenProp m).
End Context.


Arguments Create {TechDocsMetadata TechDocsEntityMetadata HTMLElement
                  Component ReactNode} component.
Arguments TechDocsMetadataContext_Provider
  {TechDocsMetadata TechDocsEntityMetadata HTMLElement Component ReactNode}
  value children.
Arguments TechDocsEntityContext_Provider
  {TechDocsMetadata TechDocsEntityMetadata HTMLElement Component ReactNode}
  value children.
Arguments TechDocsReaderPageContext_Provider
  {TechDocsMetadata TechDocsEntityMetadata HTMLElement Component ReactNode}
  value children.
Arguments createContext {TechDocsMetadata TechDocsEntityMetadata HTMLElement}.
Arguments defaultTechDocsReaderPageValue {HTMLElement}.
Arguments TechDocsMetadataProvider
  {TechDocsMetadata TechDocsEntityMetadata HTMLElement Component ReactNode}
  app techdocsApi entityName children cell.
Arguments TechDocsEntityProvider
  {TechDocsMetadata TechDocsEntityMetadata HTMLElement Component ReactNode}
  app techdocsApi entityName children cell.
Arguments TechDocsReaderPageProvider
  {TechDocsMetadata TechDocsEntityMetadata HTMLElement Component ReactNode}
  entityName children cell.
Arguments provide
  {TechDocsMetadata TechDocsEntityMetadata HTMLElement Component ReactNode}
  around e.
Arguments Settles {ReactNode} callId.
Arguments CallSetTitle {HTMLElement} action.
Arguments CallSetSubtitle {HTMLElement} action.
Arguments CallSetShadowRoot {HTMLElement} action.

(** ** The two fetch providers, one for the other *)
Section Swap.
Variables A B HTMLElement Component ReactNode : Type.

(** The client with its two fetches exchanged. *)
Definition swapApi (api : TechDocsApi A B) : TechDocsApi B A :=
  {| getTechDocsMetadata := getEntityMetadata api;
     getEntityMetadata := getTechDocsMetadata api |}.

(** The element with the two metadata contexts exchanged. *)
Definition swapElement (e : Element A B HTMLElement Component ReactNode)
  : Element B A HTMLElement Component ReactNode :=
  match e with
  | Create c => Create c
  | TechDocsMetadataContext_Provider v children =>
      TechDocsEntityContext_Provider v children
  | TechDocsEntityContext_Provider v children =>
      TechDocsMetadataContext_Provider v children
  | TechDocsReaderPageContext_Provider v children =>
      TechDocsReaderPageContext_Provider v children
  end.

Definition swapContexts (c : Contexts A B HTMLElement)
  : Contexts B A HTMLElement :=
  {| TechDocsMetadataContext := TechDocsEntityContext c;
     TechDocsEntityContext := TechDocsMetadataContext c;
     TechDocsReaderPageContext := TechDocsReaderPageContext c |}.
End Swap.

(** ** What a shadow root answers *)
Section Selectors.
Variable HTMLElement : Type.

(** A string the shadow root takes for a selector. *)
Definition isSelector (shadowRoot : ShadowRoot HTMLElement) (selector : string)
  : Prop :=
  exists nodeList, querySelectorAll shadowRoot selector = JS.Return nodeList.

(** The matches of a selector, in document order. *)
Definition matchesOf (shadowRoot : ShadowRoot HTMLElement) (selector : string)
  : list HTMLElement :=
  match querySelectorAll shadowRoot selector with
  | JS.Return nodeList => nodeList
  | JS.Throw _ => []
  end.
End Selectors.

(** ** A small page and a small backend, to run the definitions on *)
Module Sample.

(** The elements of a page, known by tag and position. *)
Record Node := { tag : string; position : nat }.

(** A shadow root over the elements of a page, listed in document order,
    whose selectors are the tag names. *)
Definition shadowRootOver (nodes : list Node) : ShadowRoot Node :=
  {| querySelectorAll := fun selector =>
       if selector =? "" then JS.Throw (JS.Object 0)
       else JS.Return (filter (fun n => tag n =? selector) nodes) |}.

Definition page : list Node :=
  [ {| tag := "a"; position := 1 |};
    {| tag := "p"; position := 2 |};
    {| tag := "a"; position := 3 |} ].

Definition app : AppContext string :=
  {| getComponents := {| NotFoundErrorPage := "NotFoundErrorPage" |} |}.

Definition docs : CompoundEntityRef :=
  {| kind := "component"; namespace := "default"; name := "docs" |}.

Definition other : CompoundEntityRef :=
  {| kind := "component"; namespace := "default"; name := "other" |}.

(** A backend that answers every fetch. *)
Definition answering : TechDocsApi string string :=
  {| getTechDocsMetadata := fun e => Fulfilled ("site of " ++ name e);
     getEntityMetadata := fun e => Fulfilled ("entity " ++ name e) |}.

(** A backend whose fetches are all rejected with the same value. *)
Definition rejecting (reason : JS.Value) : TechDocsApi string string :=
  {| getTechDocsMetadata := fun _ => Rejected reason;
     getEntityMetadata := fun _ => Rejected reason |}.

(** A reader page is mounted and a descendant attaches the shadow root of
    the page through the setter it read from the context. *)
Definition readerPage
  : Mounted string string Node string string (ReaderPageHooks Node) :=
  let m := mount TechDocsReaderPageProvider docs "addons" in
  let v := useTechDocsReaderPage (provide createContext (rendered m)) in
  update TechDocsReaderPageProvider
         (setShadowRoot v (Next (Some (shadowRootOver page)))) m.

(** The contexts its descendants read. *)
Definition attached : Contexts string string Node :=
  provide createContext (rendered readerPage).

End Sample.

(** ** Elements and setter calls, by kind *)
Section Kinds.
Variables TechDocsMetadata TechDocsEntityMetadata HTMLElement : Type.
Variables Component ReactNode : Type.

Definition isMetadataProvider
    (e : Element TechDocsMetadata TechDocsEntityMetadata HTMLElement
                 Component ReactNode) : bool :=
  match e with
  | TechDocsMetadataContext_Provider _ _ => true
  | _ => false
  end.

Definition isEntityProvider
    (e : Element TechDocsMetadata TechDocsEntityMetadata HTMLElement
                 Component ReactNode) : bool :=
  match e with
  | TechDocsEntityContext_Provider _ _ => true
  | _ => false
  end.

(** The actions a run of setter calls passes to each of the three setters,
    in the order of the calls. *)
Definition titleActions (calls : list (SetterCall HTMLElement))
  : list (SetStateAction string) :=
  flat_map (fun call => match call with
                        | CallSetTitle action => [action]
                        | _ => []
                        end) calls.

Definition subtitleActions (calls : list (SetterCall HTMLElement))
  : list (SetStateAction string) :=
  flat_map (fun call => match call with
                        | CallSetSubtitle action => [action]
                        | _ => []
                        end) calls.

Definition shadowRootActions (calls : list (SetterCall HTMLElement))
  : list (SetStateAction (option (ShadowRoot HTMLElement))) :=
  flat_map (fun call => match call with
                        | CallSetShadowRoot action => [action]
                        | _ => []
                        end) calls.
End Kinds.

(** * Properties *)

(** ** The accessor hooks *)
Section HookFacts.
Context {TechDocsMetadata TechDocsEntityMetadata HTMLElement : Type}.
Context {Component ReactNode : Type}.

Let Contexts := Contexts TechDocsMetadata TechDocsEntityMetadata HTMLElement.
Let Element :=
  Element TechDocsMetadata TechDocsEntityMetadata HTMLElement
          Component ReactNode.

Lemma Array_map_selectors
    (sr : ShadowRoot HTMLElement) (selectors : list string) :
  Forall (isSelector sr) selectors ->
  JS.Array_map (fun selector => querySelectorAll sr selector) selectors
  = JS.Return (map (matchesOf sr) selectors).
Proof.
  induction 1 as [|s rest [nl Hs] _ IH]; simpl.
  - reflexivity.
  - unfold matchesOf at 1. rewrite Hs. simpl. rewrite IH. reflexivity.
Qed.

Lemma length_truthy (A : Type) (xs : list A) :
  JS.ToBoolean (JS.length_of xs) = match xs with [] => false | _ => true end.
Proof. destruct xs; reflexivity. Qed.

(** Dropping the empty node lists before flattening changes nothing. *)
Lemma flat_nonempty (A : Type) (xss : list (list A)) :
  JS.Array_flat
    (map (fun xs => JS.Array_from xs)
         (filter (fun xs => JS.ToBoolean (JS.length_of xs)) xss))
  = List.concat xss.
Proof.
  unfold JS.Array_flat, JS.Array_from.
  induction xss as [|xs xss IH]; [reflexivity|].
  cbn [filter]. rewrite length_truthy.
  destruct xs as [|x xs]; cbn [map List.concat].
  - exact IH.
  - rewrite IH. reflexivity.
Qed.

Lemma length_flat_map_sum (A B : Type) (f : A -> list B) (xs : list A) :
  List.length (flat_map f xs) = list_sum (map (fun x => List.length (f x)) xs).
Proof.
  induction xs as [|x xs IH]; simpl.
  - reflexivity.
  - rewrite length_app, IH. reflexivity.
Qed.

(** C3.  With a shadow root in place and every string a selector,
    [useShadowRootElements] returns the matches of the first selector in
    document order, then those of the second, and so on: a selector without
    matches adds nothing and nothing is removed, so the result is as long
    as the node lists together.  For ["a"; "b"] with two matches of "a"
    and none of "b" the result is the two matches of "a". *)
Theorem useShadowRootElements_concatenates
    (ctx : Contexts) (sr : ShadowRoot HTMLElement) (selectors : list string) :
  useShadowRoot ctx = Some sr ->
  Forall (isSelector sr) selectors ->
  exists elements,
    useShadowRootElements ctx selectors = JS.Return elements /\
    elements = flat_map (matchesOf sr) selectors /\
    List.length elements
    = list_sum (map (fun s => List.length (matchesOf sr s)) selectors) /\
    (forall x y,
        selectors = ["a"; "b"] ->
        querySelectorAll sr "a" = JS.Return [x; y] ->
        querySelectorAll sr "b" = JS.Return [] ->
        elements = [x; y]).
Proof.
  intros Hroot Hsel.
  exists (flat_map (matchesOf sr) selectors).
  split; [|split; [reflexivity|split]].
  - unfold useShadowRootElements. rewrite Hroot.
    rewrite (Array_map_selectors Hsel). simpl.
    rewrite flat_nonempty, flat_map_concat_map. reflexivity.
  - apply length_flat_map_sum.
  - intros x y -> Ha Hb. simpl. unfold matchesOf. rewrite Ha, Hb. reflexivity.
Qed.

(** C6.  Without a shadow root [useShadowRootElements] returns the empty
    array, whatever strings it is given. *)
Theorem useShadowRootElements_no_shadowRoot
    (ctx : Contexts) (selectors : list string) :
  useShadowRoot ctx = None ->
  useShadowRootElements ctx selectors = JS.Return [].
Proof.
  intros Hroot. unfold useShadowRootElements. rewrite Hroot. reflexivity.
Qed.

(** C7.  [useShadowRootElements] of no selectors is the empty array, with
    or without a shadow root. *)
Theorem useShadowRootElements_nil (ctx : Contexts) :
  useShadowRootElements ctx [] = JS.Return [].
Proof.
  unfold useShadowRootElements.
  destruct (useShadowRoot ctx) as [sr|]; reflexivity.
Qed.

(** A provider of another context leaves the reader page context alone. *)
Lemma provide_other (around : Contexts) (e : Element) :
  isReaderPageProvider e = false ->
  TechDocsReaderPageContext (provide around e)
  = TechDocsReaderPageContext around.
Proof. destruct e; simpl; intros H; (reflexivity || discriminate H). Qed.

Lemma fold_provide_other (ancestors : list Element) (around : Contexts) :
  forallb (fun e => negb (isReaderPageProvider e)) ancestors = true ->
  TechDocsReaderPageContext (fold_left provide ancestors around)
  = TechDocsReaderPageContext around.
Proof.
  revert around.
  induction ancestors as [|e rest IH]; intros around H; simpl in *.
  - reflexivity.
  - apply andb_prop in H as [He Hrest].
    rewrite (IH _ Hrest). apply provide_other.
    now apply negb_true_iff.
Qed.

(** C5.  Where no [TechDocsReaderPageProvider] encloses the caller,
    [useTechDocsReaderPage] returns the default value: empty title and
    subtitle, no shadow root, and an entity reference of empty strings. *)
Theorem useTechDocsReaderPage_outside_provider (ancestors : list Element) :
  forallb (fun e => negb (isReaderPageProvider e)) ancestors = true ->
  let v := useTechDocsReaderPage (contextsUnder ancestors) in
  v = defaultTechDocsReaderPageValue /\
  title v = "" /\ subtitle v = "" /\ shadowRoot v = None /\
  kind (entityName v) = "" /\ name (entityName v) = "" /\
  namespace (entityName v) = "".
Proof.
  intros H v.
  assert (Hv : v = defaultTechDocsReaderPageValue).
  { unfold v, useTechDocsReaderPage, contextsUnder.
    rewrite (fold_provide_other _ _ H). reflexivity. }
  rewrite Hv. repeat split.
Qed.
End HookFacts.

(** ** A provider that fetches when it mounts *)
Section FetchFacts.
Context {TechDocsMetadata TechDocsEntityMetadata HTMLElement : Type}.
Context {Component ReactNode T : Type}.
Let Element :=
  Element TechDocsMetadata TechDocsEntityMetadata HTMLElement
          Component ReactNode.

Variable app : AppContext Component.
Variable fetch : CompoundEntityRef -> Settlement T.
Variable Provider : option T -> ReactNode -> Element.

Let component := fetchOnMountProvider app fetch Provider.

(** The empty dependency list keeps the callback of the first render. *)
Lemma useAsync_no_deps (fn : unit -> Settlement T) e0 over :
  useAsync fn [] (Some (cellsOf fetch e0 over))
  = (state (cellsOf fetch e0 over), cellsOf fetch e0 over).
Proof. reflexivity. Qed.

Lemma render_cellsOf e0 over e c :
  render component e c (Some (cellsOf fetch e0 over))
  = {| entityNameProp := e;
       childrenProp := c;
       cells := cellsOf fetch e0 over;
       rendered := elementOf app Provider (state (cellsOf fetch e0 over)) c |}.
Proof.
  unfold render, component, fetchOnMountProvider, elementOf.
  rewrite useAsync_no_deps.
  destruct (negb _ && _); reflexivity.
Qed.

Lemma mount_cellsOf e c :
  mount component e c
  = {| entityNameProp := e;
       childrenProp := c;
       cells := cellsOf fetch e false;
       rendered := Provider None c |}.
Proof. reflexivity. Qed.

(** Only call 1 exists, and it ends once. *)
Lemma settle_cellsOf id e0 over :
  settle id (cellsOf fetch e0 over)
  = cellsOf fetch e0 (over || (id =? 1)%nat).
Proof.
  unfold settle, cellsOf, inFlight, ended.
  destruct id as [|[|id]], over; reflexivity.
Qed.

Lemma mount_mountedWith e c :
  mountedWith app fetch Provider e false (mount component e c).
Proof. rewrite mount_cellsOf. split; reflexivity. Qed.

Lemma fetchStep_mountedWith e0 over m ev :
  mountedWith app fetch Provider e0 over m ->
  mountedWith app fetch Provider e0 (over || settles 1 ev)
              (fetchStep component m ev).
Proof.
  intros [Hcells _]. destruct ev as [e c|id]; simpl.
  - unfold rerender. rewrite Hcells, render_cellsOf, orb_false_r.
    split; reflexivity.
  - unfold update. rewrite Hcells, settle_cellsOf, render_cellsOf.
    split; reflexivity.
Qed.

Lemma fetchRun_mountedWith e0 evs : forall over m,
  mountedWith app fetch Provider e0 over m ->
  mountedWith app fetch Provider e0 (over || existsb (settles 1) evs)
              (fetchRun component m evs).
Proof.
  induction evs as [|ev evs IH]; intros over m Hm; simpl.
  - now rewrite orb_false_r.
  - rewrite orb_assoc. apply IH, fetchStep_mountedWith, Hm.
Qed.

Lemma fetchRun_mount e c evs :
  mountedWith app fetch Provider e (existsb (settles 1) evs)
              (fetchRun component (mount component e c) evs).
Proof. apply (fetchRun_mountedWith evs (mount_mountedWith e c)). Qed.

Lemma phase_ended (o : Settlement T) :
  phase (ended o)
  = match o with Fulfilled _ => success | Rejected _ => failure end.
Proof. destruct o; reflexivity. Qed.

Lemma phase_mountedWith e0 over m :
  mountedWith app fetch Provider e0 over m ->
  phase (state (cells m))
  = if over then phase (ended (fetch e0)) else pending.
Proof. intros [-> _]. destruct over; reflexivity. Qed.

(** The fetch of a mounted provider: it starts pending, an event leaves the
    phase as it is or moves it from pending to an end, an end stays, and the
    calls issued are the one call of the first render. *)
Lemma fetch_machine e c evs ev :
  let m0 := mount component e c in
  let m := fetchRun component m0 evs in
  let m' := fetchStep component m ev in
  phase (state (cells m0)) = pending /\
  (phase (state (cells m')) = phase (state (cells m)) \/
   transition (phase (state (cells m))) (phase (state (cells m')))) /\
  (forall evs',
      phase (state (cells m)) <> pending ->
      phase (state (cells (fetchRun component m evs')))
      = phase (state (cells m))) /\
  lastCallId (cells m) = 1 /\
  map (@outcome T) (calls (cells m)) = [fetch e].
Proof.
  intros m0 m m'.
  pose proof (fetchRun_mount e c evs) as Hm. fold m0 m in Hm.
  pose proof (fetchStep_mountedWith ev Hm) as Hm'. fold m' in Hm'.
  split; [reflexivity|].
  rewrite (phase_mountedWith Hm), (phase_mountedWith Hm'), phase_ended.
  split; [|split; [|split]].
  - destruct (existsb (settles 1) evs), (settles 1 ev); simpl; auto.
    destruct (fetch e); right; constructor.
  - intros evs' Hover.
    rewrite (phase_mountedWith (fetchRun_mountedWith evs' Hm)), phase_ended.
    destruct (existsb (settles 1) evs); [reflexivity|congruence].
  - destruct Hm as [-> _]. reflexivity.
  - destruct Hm as [-> _]. reflexivity.
Qed.

(** What a mounted provider renders, by how the fetch stands. *)
Lemma fetch_rendered e c evs :
  let m := fetchRun component (mount component e c) evs in
  rendered m
  = if existsb (settles 1) evs
    then elementOf app Provider (ended (fetch e)) (childrenProp m)
    else Provider None (childrenProp m).
Proof.
  intros m. destruct (fetchRun_mount e c evs) as [_ Hr]. fold m in Hr.
  rewrite Hr. destruct (existsb (settles 1) evs); reflexivity.
Qed.
End FetchFacts.

(** ** [TechDocsMetadataProvider] and [TechDocsEntityProvider] *)
Section ProviderFacts.
Context {TechDocsMetadata TechDocsEntityMetadata HTMLElement : Type}.
Context {Component ReactNode : Type}.
Let Element :=
  Element TechDocsMetadata TechDocsEntityMetadata HTMLElement
          Component ReactNode.
Let Contexts := Contexts TechDocsMetadata TechDocsEntityMetadata HTMLElement.

Variable app : AppContext Component.
Variable techdocsApi : TechDocsApi TechDocsMetadata TechDocsEntityMetadata.

Let MetadataProvider :
  CompoundEntityRef -> ReactNode -> option (AsyncFn TechDocsMetadata) ->
  Element * AsyncFn TechDocsMetadata :=
  TechDocsMetadataProvider app techdocsApi.
Let EntityProvider :
  CompoundEntityRef -> ReactNode -> option (AsyncFn TechDocsEntityMetadata) ->
  Element * AsyncFn TechDocsEntityMetadata :=
  TechDocsEntityProvider app techdocsApi.

Lemma MetadataProvider_shape :
  MetadataProvider
  = fetchOnMountProvider app (getTechDocsMetadata techdocsApi)
                         TechDocsMetadataContext_Provider.
Proof. reflexivity. Qed.

Lemma EntityProvider_shape :
  EntityProvider
  = fetchOnMountProvider app (getEntityMetadata techdocsApi)
                         TechDocsEntityContext_Provider.
Proof. reflexivity. Qed.

(** C1, as amended.  When the fetch is rejected with a truthy value, which
    every object and so every [Error] is, the provider renders the not-found
    page of the shell from the end of the fetch on, and none of its
    children: no context provider is rendered at all. *)
Theorem rejected_renders_NotFoundErrorPage
    (entityName : CompoundEntityRef) (children : ReactNode)
    (reason : JS.Value) (evs : list (FetchEvent ReactNode)) :
  JS.ToBoolean reason = true ->
  existsb (settles 1) evs = true ->
  (getTechDocsMetadata techdocsApi entityName = Rejected reason ->
   let m := fetchRun MetadataProvider
                     (mount MetadataProvider entityName children) evs in
   rendered m = Create (NotFoundErrorPage (getComponents app)) /\
   renderedChildren (rendered m) = []) /\
  (getEntityMetadata techdocsApi entityName = Rejected reason ->
   let m := fetchRun EntityProvider
                     (mount EntityProvider entityName children) evs in
   rendered m = Create (NotFoundErrorPage (getComponents app)) /\
   renderedChildren (rendered m) = []).
Proof.
  intros Htruthy Hover. split; intros Hfetch m.
  - unfold m. rewrite MetadataProvider_shape, fetch_rendered, Hover, Hfetch.
    unfold elementOf, errorOf; simpl. rewrite Htruthy. split; reflexivity.
  - unfold m. rewrite EntityProvider_shape, fetch_rendered, Hover, Hfetch.
    unfold elementOf, errorOf; simpl. rewrite Htruthy. split; reflexivity.
Qed.

(** A rejection with a falsy value passes the test [!loading && error]
    unseen: the children stay, below an undefined context value. *)
Lemma rejected_falsy_renders_children
    (entityName : CompoundEntityRef) (children : ReactNode)
    (reason : JS.Value) (evs : list (FetchEvent ReactNode)) :
  JS.ToBoolean reason = false ->
  getTechDocsMetadata techdocsApi entityName = Rejected reason ->
  let m := fetchRun MetadataProvider
                    (mount MetadataProvider entityName children) evs in
  rendered m = TechDocsMetadataContext_Provider None (childrenProp m).
Proof.
  intros Hfalsy Hfetch m.
  unfold m. rewrite MetadataProvider_shape, fetch_rendered, Hfetch.
  destruct (existsb (settles 1) evs); [|reflexivity].
  unfold elementOf, errorOf; simpl. rewrite Hfalsy. reflexivity.
Qed.

(** C2.  For every entity reference, the provider renders its children
    below a context whose value is undefined until the fetch has ended,
    and the value the fetch was fulfilled with from then on; [useMetadata]
    below the provider returns that very value. *)
Theorem fulfilled_provides_metadata
    (around : Contexts) (entityName : CompoundEntityRef) (children : ReactNode)
    (metadata : TechDocsMetadata) (evs : list (FetchEvent ReactNode)) :
  getTechDocsMetadata techdocsApi entityName = Fulfilled metadata ->
  let m := fetchRun MetadataProvider
                    (mount MetadataProvider entityName children) evs in
  let value := if existsb (settles 1) evs then Some metadata else None in
  rendered m = TechDocsMetadataContext_Provider value (childrenProp m) /\
  renderedChildren (rendered m) = [childrenProp m] /\
  useMetadata (provide around (rendered m)) = value.
Proof.
  intros Hfetch m value.
  assert (Hr : rendered m
               = TechDocsMetadataContext_Provider value (childrenProp m)).
  { unfold m, value. rewrite MetadataProvider_shape, fetch_rendered, Hfetch.
    destruct (existsb (settles 1) evs); reflexivity. }
  rewrite Hr. repeat split.
Qed.

(** C4.  The fetch of either provider starts pending; an event leaves its
    phase alone or moves it from pending to success or to failure; once
    ended it stays as it is whatever follows; and one call is issued for
    the whole time the provider is mounted, the one of the first render
    with the entity reference of that render, whatever references later
    renders are given. *)
Theorem fetch_once_per_mount
    (entityName : CompoundEntityRef) (children : ReactNode)
    (evs : list (FetchEvent ReactNode)) (ev : FetchEvent ReactNode) :
  (let m0 := mount MetadataProvider entityName children in
   let m := fetchRun MetadataProvider m0 evs in
   let m' := fetchStep MetadataProvider m ev in
   phase (state (cells m0)) = pending /\
   (phase (state (cells m')) = phase (state (cells m)) \/
    transition (phase (state (cells m))) (phase (state (cells m')))) /\
   (forall evs',
       phase (state (cells m)) <> pending ->
       phase (state (cells (fetchRun MetadataProvider m evs')))
       = phase (state (cells m))) /\
   lastCallId (cells m) = 1 /\
   map (@outcome _) (calls (cells m))
   = [getTechDocsMetadata techdocsApi entityName]) /\
  (let m0 := mount EntityProvider entityName children in
   let m := fetchRun EntityProvider m0 evs in
   let m' := fetchStep EntityProvider m ev in
   phase (state (cells m0)) = pending /\
   (phase (state (cells m')) = phase (state (cells m)) \/
    transition (phase (state (cells m))) (phase (state (cells m')))) /\
   (forall evs',
       phase (state (cells m)) <> pending ->
       phase (state (cells (fetchRun EntityProvider m evs')))
       = phase (state (cells m))) /\
   lastCallId (cells m) = 1 /\
   map (@outcome _) (calls (cells m))
   = [getEntityMetadata techdocsApi entityName]).
Proof.
  split.
  - rewrite MetadataProvider_shape. apply fetch_machine.
  - rewrite EntityProvider_shape. apply fetch_machine.
Qed.
End ProviderFacts.

(** ** One provider is the other with the fetches exchanged *)
Section SwapFacts.
Context {A B HTMLElement Component ReactNode : Type}.

Variable app : AppContext Component.
Variable techdocsApi : TechDocsApi A B.

Let EntityProvider :
  CompoundEntityRef -> ReactNode -> option (AsyncFn B) ->
  Element A B HTMLElement Component ReactNode * AsyncFn B :=
  TechDocsEntityProvider app techdocsApi.
Let MetadataProvider :
  CompoundEntityRef -> ReactNode -> option (AsyncFn A) ->
  Element A B HTMLElement Component ReactNode * AsyncFn A :=
  TechDocsMetadataProvider app techdocsApi.
Let EntityProvider' :
  CompoundEntityRef -> ReactNode -> option (AsyncFn A) ->
  Element B A HTMLElement Component ReactNode * AsyncFn A :=
  TechDocsEntityProvider app (swapApi techdocsApi).
Let MetadataProvider' :
  CompoundEntityRef -> ReactNode -> option (AsyncFn B) ->
  Element B A HTMLElement Component ReactNode * AsyncFn B :=
  TechDocsMetadataProvider app (swapApi techdocsApi).

Lemma EntityProvider_swap entityName children cell :
  EntityProvider entityName children cell
  = (let '(element, cell') := MetadataProvider' entityName children cell in
     (swapElement element, cell')).
Proof.
  unfold EntityProvider, MetadataProvider',
    TechDocsEntityProvider, TechDocsMetadataProvider.
  cbn [swapApi getTechDocsMetadata].
  destruct (useAsync _ _ cell) as [s cell'].
  destruct (negb _ && _); reflexivity.
Qed.

Lemma MetadataProvider_swap entityName children cell :
  MetadataProvider entityName children cell
  = (let '(element, cell') := EntityProvider' entityName children cell in
     (swapElement element, cell')).
Proof.
  unfold MetadataProvider, EntityProvider',
    TechDocsEntityProvider, TechDocsMetadataProvider.
  cbn [swapApi getEntityMetadata].
  destruct (useAsync _ _ cell) as [s cell'].
  destruct (negb _ && _); reflexivity.
Qed.

(** Two mounted providers that differ by the exchange only. *)
Lemma render_swap entityName children cell :
  let m := render EntityProvider entityName children cell in
  let n := render MetadataProvider' entityName children cell in
  rendered m = swapElement (rendered n) /\
  cells m = cells n /\
  childrenProp m = childrenProp n /\
  entityNameProp m = entityNameProp n.
Proof.
  unfold render. rewrite EntityProvider_swap.
  destruct (MetadataProvider' entityName children cell) as [element cell'].
  repeat split.
Qed.

Lemma fetchRun_swap evs : forall m n,
  rendered m = swapElement (rendered n) /\
  cells m = cells n /\
  childrenProp m = childrenProp n /\
  entityNameProp m = entityNameProp n ->
  let m' := fetchRun EntityProvider m evs in
  let n' := fetchRun MetadataProvider' n evs in
  rendered m' = swapElement (rendered n') /\
  cells m' = cells n' /\
  childrenProp m' = childrenProp n' /\
  entityNameProp m' = entityNameProp n'.
Proof.
  induction evs as [|ev evs IH]; intros m n H; [exact H|].
  simpl. apply IH. destruct H as (_ & Hc & Hch & He).
  destruct ev as [e c|id]; simpl; unfold rerender, update.
  - rewrite Hc. apply render_swap.
  - rewrite Hc, Hch, He. apply render_swap.
Qed.

(** C9.  [TechDocsEntityProvider] is [TechDocsMetadataProvider] over the
    client whose two fetches are exchanged, with the two metadata contexts
    exchanged in the element, and the other way round; a mounted provider
    and its exchanged twin stay so related after any events; both are the
    one shared shape, at their own fetch and context; and
    [useEntityMetadata] reads what [useMetadata] reads from the exchanged
    contexts. *)
Theorem providers_structurally_identical
    (entityName : CompoundEntityRef) (children : ReactNode)
    (evs : list (FetchEvent ReactNode)) :
  (forall cell,
      EntityProvider entityName children cell
      = (let '(element, cell') := MetadataProvider' entityName children cell in
         (swapElement element, cell'))) /\
  (forall cell,
      MetadataProvider entityName children cell
      = (let '(element, cell') := EntityProvider' entityName children cell in
         (swapElement element, cell'))) /\
  (let m := fetchRun EntityProvider
                     (mount EntityProvider entityName children) evs in
   let n := fetchRun MetadataProvider'
                     (mount MetadataProvider' entityName children) evs in
   rendered m = swapElement (rendered n) /\
   cells m = cells n /\
   childrenProp m = childrenProp n) /\
  MetadataProvider
  = fetchOnMountProvider app (getTechDocsMetadata techdocsApi)
                         TechDocsMetadataContext_Provider /\
  EntityProvider
  = fetchOnMountProvider app (getEntityMetadata techdocsApi)
                         TechDocsEntityContext_Provider /\
  (forall ctx : Contexts A B HTMLElement,
      useEntityMetadata ctx = useMetadata (swapContexts ctx)).
Proof.
  split; [|split; [|split; [|repeat split]]].
  - apply EntityProvider_swap.
  - apply MetadataProvider_swap.
  - intros m n.
    destruct (fetchRun_swap evs _ _ (render_swap entityName children None))
      as (Hr & Hc & Hch & _).
    repeat split; assumption.
Qed.
End SwapFacts.

(** ** [TechDocsReaderPageProvider] *)
Section ReaderPageFacts.
Context {TechDocsMetadata TechDocsEntityMetadata HTMLElement : Type}.
Context {Component ReactNode : Type}.
Let Element :=
  Element TechDocsMetadata TechDocsEntityMetadata HTMLElement
          Component ReactNode.
Let Contexts := Contexts TechDocsMetadata TechDocsEntityMetadata HTMLElement.

Let Provider :
  CompoundEntityRef -> ReactNode -> option (ReaderPageHooks HTMLElement) ->
  Element * ReaderPageHooks HTMLElement :=
  TechDocsReaderPageProvider.

(** What a descendant reads after a render of the provider on [cell]. *)
Let reads (around : Contexts) (entityName : CompoundEntityRef)
    (children : ReactNode) (cell : option (ReaderPageHooks HTMLElement))
  : TechDocsReaderPageValue HTMLElement :=
  useTechDocsReaderPage
    (provide around (rendered (render Provider entityName children cell))).

Lemma useState_pending (S : Type) (initialState : S) (h : StateHook S)
    (action : SetStateAction S) :
  fst (useState initialState (Some (dispatchSetState action h)))
  = basicStateReducer (fst (useState initialState (Some h))) action.
Proof.
  unfold useState, dispatchSetState; simpl.
  rewrite fold_left_app. reflexivity.
Qed.

(** The fields of the value are the states of the three cells and the
    entity reference of the render. *)
Lemma reads_fields around e c (hooks : ReaderPageHooks HTMLElement) :
  let v := reads around e c (Some hooks) in
  title v = fst (useState "" (Some (titleHook hooks))) /\
  subtitle v = fst (useState "" (Some (subtitleHook hooks))) /\
  shadowRoot v = fst (useState None (Some (shadowRootHook hooks))) /\
  entityName v = e.
Proof. repeat split. Qed.

(** The setters of the value are those of the three cells, in every
    render. *)
Lemma reads_setters around e c cell (hooks : ReaderPageHooks HTMLElement) :
  let v := reads around e c cell in
  (forall action,
      setTitle v action hooks
      = {| titleHook := dispatchSetState action (titleHook hooks);
           subtitleHook := subtitleHook hooks;
           shadowRootHook := shadowRootHook hooks |}) /\
  (forall action,
      setSubtitle v action hooks
      = {| titleHook := titleHook hooks;
           subtitleHook := dispatchSetState action (subtitleHook hooks);
           shadowRootHook := shadowRootHook hooks |}) /\
  (forall action,
      setShadowRoot v action hooks
      = {| titleHook := titleHook hooks;
           subtitleHook := subtitleHook hooks;
           shadowRootHook := dispatchSetState action (shadowRootHook hooks) |}).
Proof. destruct cell; repeat split. Qed.

(** C8.  A descendant reads the value of a mounted provider and calls, after
    any other setter calls, [setTitle] on a string: the next render of the
    provider has that string for [title].  Likewise for [setSubtitle], and
    for [setShadowRoot] on a shadow root or on undefined; whatever is
    passed is stored as it is. *)
Theorem setTitle_then_title
    (around : Contexts) (entityName entityName' : CompoundEntityRef)
    (children children' : ReactNode)
    (cell : option (ReaderPageHooks HTMLElement))
    (before : list (SetterCall HTMLElement)) :
  let m := render Provider entityName children cell in
  let v := useTechDocsReaderPage (provide around (rendered m)) in
  let hooks := fold_left (callSetter v) before (cells m) in
  let next hooks' :=
    useTechDocsReaderPage
      (provide around
         (rendered (render Provider entityName' children' (Some hooks')))) in
  (forall X : string, title (next (setTitle v (Next X) hooks)) = X) /\
  (forall X : string, subtitle (next (setSubtitle v (Next X) hooks)) = X) /\
  (forall root : option (ShadowRoot HTMLElement),
      shadowRoot (next (setShadowRoot v (Next root) hooks)) = root).
Proof.
  intros m v hooks next.
  destruct (reads_setters around entityName children cell hooks)
    as (Ht & Hs & Hr).
  fold m v in Ht, Hs, Hr.
  split; [|split]; intros x; unfold next.
  - rewrite Ht.
    destruct (reads_fields around entityName' children'
                {| titleHook := dispatchSetState (Next x) (titleHook hooks);
                   subtitleHook := subtitleHook hooks;
                   shadowRootHook := shadowRootHook hooks |}) as (H & _).
    unfold reads in H. rewrite H. cbn [titleHook].
    now rewrite useState_pending.
  - rewrite Hs.
    destruct (reads_fields around entityName' children'
                {| titleHook := titleHook hooks;
                   subtitleHook :=
                     dispatchSetState (Next x) (subtitleHook hooks);
                   shadowRootHook := shadowRootHook hooks |}) as (_ & H & _).
    unfold reads in H. rewrite H. cbn [subtitleHook].
    now rewrite useState_pending.
  - rewrite Hr.
    destruct (reads_fields around entityName' children'
                {| titleHook := titleHook hooks;
                   subtitleHook := subtitleHook hooks;
                   shadowRootHook :=
                     dispatchSetState (Next x) (shadowRootHook hooks) |})
      as (_ & _ & H & _).
    unfold reads in H. rewrite H. cbn [shadowRootHook].
    now rewrite useState_pending.
Qed.

(** C10.  A setter call changes its own field only: the next render after
    [setTitle] has the subtitle, the shadow root and the entity reference it
    would have had without the call, and likewise for [setSubtitle] and
    [setShadowRoot], whatever the action; and after any setter calls the
    entity reference in the value is the one the provider is rendered
    with. *)
Theorem setters_frame
    (around : Contexts) (ref ref' : CompoundEntityRef)
    (children children' : ReactNode)
    (cell : option (ReaderPageHooks HTMLElement))
    (before : list (SetterCall HTMLElement)) :
  let m := render Provider ref children cell in
  let v := useTechDocsReaderPage (provide around (rendered m)) in
  let hooks := fold_left (callSetter v) before (cells m) in
  let next hooks' :=
    useTechDocsReaderPage
      (provide around
         (rendered (render Provider ref' children' (Some hooks')))) in
  (forall action,
      subtitle (next (setTitle v action hooks)) = subtitle (next hooks) /\
      shadowRoot (next (setTitle v action hooks)) = shadowRoot (next hooks) /\
      entityName (next (setTitle v action hooks))
      = entityName (next hooks)) /\
  (forall action,
      title (next (setSubtitle v action hooks)) = title (next hooks) /\
      shadowRoot (next (setSubtitle v action hooks))
      = shadowRoot (next hooks) /\
      entityName (next (setSubtitle v action hooks))
      = entityName (next hooks)) /\
  (forall action,
      title (next (setShadowRoot v action hooks)) = title (next hooks) /\
      subtitle (next (setShadowRoot v action hooks)) = subtitle (next hooks) /\
      entityName (next (setShadowRoot v action hooks))
      = entityName (next hooks)) /\
  (forall calls : list (SetterCall HTMLElement),
      entityName (next (fold_left (callSetter v) calls hooks))
      = ref').
Proof.
  intros m v hooks next.
  destruct (reads_setters around ref children cell hooks)
    as (Ht & Hs & Hr).
  fold m v in Ht, Hs, Hr.
  split; [|split; [|split]]; intros a.
  - rewrite Ht. repeat split.
  - rewrite Hs. repeat split.
  - rewrite Hr. repeat split.
  - reflexivity.
Qed.
End ReaderPageFacts.

(** ** The definitions at work on the sample page and backend *)

Example attached_shadowRoot :
  useShadowRoot Sample.attached = Some (Sample.shadowRootOver Sample.page).
Proof. reflexivity. Qed.

Example elements_in_selector_order :
  useShadowRootElements Sample.attached ["p"; "a"; "h1"]
  = JS.Return [ {| Sample.tag := "p"; Sample.position := 2 |};
                {| Sample.tag := "a"; Sample.position := 1 |};
                {| Sample.tag := "a"; Sample.position := 3 |} ].
Proof. reflexivity. Qed.

Example elements_listed_twice :
  useShadowRootElements Sample.attached ["a"; "a"]
  = JS.Return [ {| Sample.tag := "a"; Sample.position := 1 |};
                {| Sample.tag := "a"; Sample.position := 3 |};
                {| Sample.tag := "a"; Sample.position := 1 |};
                {| Sample.tag := "a"; Sample.position := 3 |} ].
Proof. reflexivity. Qed.

(** A string that is no selector makes [querySelectorAll] throw, and the
    hook with it. *)
Example not_a_selector_throws :
  useShadowRootElements Sample.attached ["a"; ""] = JS.Throw (JS.Object 0).
Proof. reflexivity. Qed.

Example metadata_after_fetch :
  let P := TechDocsMetadataProvider (HTMLElement := Sample.Node)
                                    Sample.app Sample.answering in
  rendered (mount P Sample.docs "addons")
  = TechDocsMetadataContext_Provider None "addons" /\
  rendered (fetchRun P (mount P Sample.docs "addons")
                     [Rerender Sample.other "addons"; Settles 1])
  = TechDocsMetadataContext_Provider (Some "site of docs") "addons".
Proof. split; reflexivity. Qed.

(** C1, as stated, fails: rejected with [undefined], or any other falsy
    value, the fetch ends with an [error] the test [!loading && error] does
    not see, and the provider renders its children below an undefined
    context value. *)
Lemma rejected_with_undefined_renders_children :
  (let P := TechDocsMetadataProvider (HTMLElement := Sample.Node)
              Sample.app (Sample.rejecting JS.Undefined) in
   let m := fetchRun P (mount P Sample.docs "addons") [Settles 1] in
   getTechDocsMetadata (Sample.rejecting JS.Undefined) Sample.docs
   = Rejected JS.Undefined /\
   phase (state (cells m)) = failure /\
   rendered m = TechDocsMetadataContext_Provider None "addons" /\
   renderedChildren (rendered m) = ["addons"]) /\
  ~ (forall reason : JS.Value,
        let P := TechDocsMetadataProvider (HTMLElement := Sample.Node)
                   Sample.app (Sample.rejecting reason) in
        let m := fetchRun P (mount P Sample.docs "addons") [Settles 1] in
        rendered m = Create (NotFoundErrorPage (getComponents Sample.app)) /\
        renderedChildren (rendered m) = []).
Proof.
  split.
  - repeat split.
  - intros H. destruct (H JS.Undefined) as [Hr _]. discriminate Hr.
Qed.

Lemma rejected_renders_NotFoundErrorPage_witness :
  JS.ToBoolean (JS.Object 7) = true /\
  (let P := TechDocsMetadataProvider (HTMLElement := Sample.Node)
              Sample.app (Sample.rejecting (JS.Object 7)) in
   rendered (fetchRun P (mount P Sample.docs "addons")
                      [Rerender Sample.other "addons"; Settles 1])
   = Create "NotFoundErrorPage") /\
  (let P := TechDocsEntityProvider (HTMLElement := Sample.Node)
              Sample.app (Sample.rejecting (JS.Object 7)) in
   rendered (fetchRun P (mount P Sample.docs "addons")
                      [Rerender Sample.other "addons"; Settles 1])
   = Create "NotFoundErrorPage").
Proof.
  split; [reflexivity|].
  destruct (rejected_renders_NotFoundErrorPage
              (HTMLElement := Sample.Node)
              Sample.app (Sample.rejecting (JS.Object 7))
              Sample.docs "addons" (JS.Object 7)
              [Rerender Sample.other "addons"; Settles 1])
    as [HM HE]; [reflexivity|reflexivity|].
  split.
  - apply HM. reflexivity.
  - apply HE. reflexivity.
Defined.

Lemma fulfilled_provides_metadata_witness :
  getTechDocsMetadata Sample.answering Sample.docs = Fulfilled "site of docs" /\
  (let P := TechDocsMetadataProvider (HTMLElement := Sample.Node)
              Sample.app Sample.answering in
   let m := fetchRun P (mount P Sample.docs "addons") [Settles 1] in
   rendered m
   = TechDocsMetadataContext_Provider (Some "site of docs") "addons" /\
   renderedChildren (rendered m) = ["addons"] /\
   useMetadata (provide createContext (rendered m)) = Some "site of docs").
Proof.
  split; [reflexivity|].
  apply (fulfilled_provides_metadata
           (HTMLElement := Sample.Node) Sample.app Sample.answering
           createContext Sample.docs "addons" (metadata := "site of docs")
           [Settles 1]).
  reflexivity.
Defined.

Lemma useShadowRootElements_concatenates_witness :
  useShadowRoot Sample.attached = Some (Sample.shadowRootOver Sample.page) /\
  Forall (isSelector (Sample.shadowRootOver Sample.page)) ["a"; "b"] /\
  exists elements,
    useShadowRootElements Sample.attached ["a"; "b"] = JS.Return elements /\
    elements = [ {| Sample.tag := "a"; Sample.position := 1 |};
                 {| Sample.tag := "a"; Sample.position := 3 |} ].
Proof.
  assert (Hsel : Forall (isSelector (Sample.shadowRootOver Sample.page))
                        ["a"; "b"]).
  { repeat constructor; eexists; reflexivity. }
  split; [reflexivity|split; [exact Hsel|]].
  destruct (useShadowRootElements_concatenates
              Sample.attached (sr := Sample.shadowRootOver Sample.page)
              (selectors := ["a"; "b"]) eq_refl Hsel)
    as (elements & Hret & _ & _ & Hab).
  exists elements. split; [exact Hret|].
  apply Hab; reflexivity.
Defined.

Lemma fetch_once_per_mount_witness :
  let P := TechDocsMetadataProvider (HTMLElement := Sample.Node)
             Sample.app Sample.answering in
  let m := fetchRun P (mount P Sample.docs "addons")
                    [Rerender Sample.other "addons"; Settles 1] in
  phase (state (cells m)) <> pending /\
  phase (state (cells (fetchRun P m [Rerender Sample.docs "addons"; Settles 1;
                                     Settles 2])))
  = phase (state (cells m)) /\
  map (@outcome _) (calls (cells m)) = [Fulfilled "site of docs"].
Proof.
  intros P m.
  destruct (fetch_once_per_mount
              (HTMLElement := Sample.Node) Sample.app Sample.answering
              Sample.docs "addons"
              [Rerender Sample.other "addons"; Settles 1] (Settles 1))
    as [(_ & _ & Hend & _ & Hcalls) _].
  assert (Hover : phase (state (cells m)) <> pending) by discriminate.
  split; [exact Hover|split].
  - apply Hend. exact Hover.
  - exact Hcalls.
Defined.

Lemma useTechDocsReaderPage_outside_provider_witness :
  let ancestors :=
    [ TechDocsMetadataContext_Provider
        (TechDocsEntityMetadata := string) (HTMLElement := Sample.Node)
        (Component := string) (Some "site of docs") "addons";
      TechDocsEntityContext_Provider None "addons" ] in
  forallb (fun e => negb (isReaderPageProvider e)) ancestors = true /\
  title (useTechDocsReaderPage (contextsUnder ancestors)) = "" /\
  shadowRoot (useTechDocsReaderPage (contextsUnder ancestors)) = None.
Proof.
  intros ancestors.
  split; [reflexivity|].
  destruct (useTechDocsReaderPage_outside_provider ancestors eq_refl)
    as (_ & Ht & _ & Hr & _).
  split; [exact Ht|exact Hr].
Defined.

Lemma useShadowRootElements_no_shadowRoot_witness :
  let ctx : Contexts string string Sample.Node :=
    provide createContext
            (rendered (mount (Component := string) TechDocsReaderPageProvider
                             Sample.docs "addons")) in
  useShadowRoot ctx = None /\
  useShadowRootElements ctx ["a"; ""; "p"] = JS.Return [].
Proof.
  intros ctx.
  split; [reflexivity|].
  apply useShadowRootElements_no_shadowRoot. reflexivity.
Defined.

(** * Further properties *)

Unset Implicit Arguments.

(** ** [useShadowRootElements] on any strings *)
Section SelectorFacts.
Context {TechDocsMetadata TechDocsEntityMetadata HTMLElement : Type}.
Let Contexts := Contexts TechDocsMetadata TechDocsEntityMetadata HTMLElement.

(** When the queries all return, every string was a selector and the node
    lists are the matches. *)
Lemma Array_map_returns
    (sr : ShadowRoot HTMLElement) (selectors : list string) :
  forall nodeLists,
    JS.Array_map (fun selector => querySelectorAll sr selector) selectors
    = JS.Return nodeLists ->
    Forall (isSelector sr) selectors /\
    nodeLists = map (matchesOf sr) selectors.
Proof.
  induction selectors as [|s rest IH]; simpl; intros nodeLists H.
  - injection H as <-. split; constructor.
  - destruct (querySelectorAll sr s) as [nl|exn] eqn:Hs; simpl in H;
      [|discriminate H].
    destruct (JS.Array_map _ rest) as [nls|exn] eqn:Hrest; simpl in H;
      [|discriminate H].
    injection H as <-. destruct (IH _ eq_refl) as [Hall ->]. split.
    + constructor; [exists nl; exact Hs|exact Hall].
    + simpl. f_equal. unfold matchesOf. rewrite Hs. reflexivity.
Qed.

(** The first string that is no selector ends the queries. *)
Lemma Array_map_throws (sr : ShadowRoot HTMLElement)
    (before after : list string) (bad : string) (exn : JS.Value) :
  Forall (isSelector sr) before ->
  querySelectorAll sr bad = JS.Throw exn ->
  JS.Array_map (fun selector => querySelectorAll sr selector)
               (before ++ bad :: after)%list
  = JS.Throw exn.
Proof.
  intros Hbefore Hbad.
  induction Hbefore as [|s rest [nl Hs] _ IH]; simpl.
  - rewrite Hbad. reflexivity.
  - rewrite Hs. simpl. rewrite IH. reflexivity.
Qed.

Lemma elements_of_matches (ctx : Contexts) (sr : ShadowRoot HTMLElement)
    (selectors : list string) :
  useShadowRoot ctx = Some sr ->
  Forall (isSelector sr) selectors ->
  useShadowRootElements ctx selectors
  = JS.Return (flat_map (matchesOf sr) selectors).
Proof.
  intros Hroot Hsel. unfold useShadowRootElements. rewrite Hroot.
  rewrite (Array_map_selectors Hsel). simpl.
  rewrite flat_nonempty, flat_map_concat_map. reflexivity.
Qed.

Lemma returned_elements (ctx : Contexts) (sr : ShadowRoot HTMLElement)
    (selectors : list string) (elements : list HTMLElement) :
  useShadowRoot ctx = Some sr ->
  useShadowRootElements ctx selectors = JS.Return elements ->
  Forall (isSelector sr) selectors /\
  elements = flat_map (matchesOf sr) selectors.
Proof.
  intros Hroot Hret.
  assert (Hsel : Forall (isSelector sr) selectors).
  { unfold useShadowRootElements in Hret. rewrite Hroot in Hret.
    destruct (JS.Array_map _ selectors) as [nls|exn] eqn:Hmap;
      [|discriminate Hret].
    apply (Array_map_returns sr selectors nls Hmap). }
  split; [exact Hsel|].
  rewrite (elements_of_matches ctx sr selectors Hroot Hsel) in Hret.
  injection Hret as <-. reflexivity.
Qed.

(** X1.  With a shadow root in place, a string that is no selector makes
    the hook throw what [querySelectorAll] throws on the first such string,
    whatever strings follow it. *)
Theorem useShadowRootElements_throws
    (ctx : Contexts) (sr : ShadowRoot HTMLElement)
    (before after : list string) (bad : string) (exn : JS.Value) :
  useShadowRoot ctx = Some sr ->
  Forall (isSelector sr) before ->
  querySelectorAll sr bad = JS.Throw exn ->
  useShadowRootElements ctx (before ++ bad :: after)%list = JS.Throw exn.
Proof.
  intros Hroot Hbefore Hbad. unfold useShadowRootElements. rewrite Hroot.
  rewrite (Array_map_throws sr before after bad exn Hbefore Hbad).
  reflexivity.
Qed.

(** X2.  With a shadow root in place, the hook returns exactly when every
    string is a selector of the shadow root. *)
Theorem useShadowRootElements_returns_iff
    (ctx : Contexts) (sr : ShadowRoot HTMLElement) (selectors : list string) :
  useShadowRoot ctx = Some sr ->
  ((exists elements, useShadowRootElements ctx selectors = JS.Return elements)
   <-> Forall (isSelector sr) selectors).
Proof.
  intros Hroot. split.
  - intros [elements Hret].
    apply (returned_elements ctx sr selectors elements Hroot Hret).
  - intros Hsel. eexists.
    apply (elements_of_matches ctx sr selectors Hroot Hsel).
Qed.

(** X3.  With a shadow root in place, the elements returned are those, and
    only those, that some listed selector matches. *)
Theorem useShadowRootElements_In
    (ctx : Contexts) (sr : ShadowRoot HTMLElement) (selectors : list string)
    (elements : list HTMLElement) :
  useShadowRoot ctx = Some sr ->
  useShadowRootElements ctx selectors = JS.Return elements ->
  forall x,
    In x elements <->
    exists selector nodeList,
      In selector selectors /\
      querySelectorAll sr selector = JS.Return nodeList /\
      In x nodeList.
Proof.
  intros Hroot Hret x.
  destruct (returned_elements ctx sr selectors elements Hroot Hret)
    as [Hsel ->].
  rewrite in_flat_map. split.
  - intros (s & Hs & Hx).
    destruct (proj1 (Forall_forall _ _) Hsel s Hs) as [nl Hnl].
    exists s, nl. unfold matchesOf in Hx. rewrite Hnl in Hx. auto.
  - intros (s & nl & Hs & Hnl & Hx).
    exists s. unfold matchesOf. rewrite Hnl. auto.
Qed.

(** X4.  The elements of two lists of selectors one after the other are
    the elements of the first list followed by those of the second, with or
    without a shadow root. *)
Theorem useShadowRootElements_app
    (ctx : Contexts) (selectors selectors' : list string)
    (elements elements' : list HTMLElement) :
  useShadowRootElements ctx selectors = JS.Return elements ->
  useShadowRootElements ctx selectors' = JS.Return elements' ->
  useShadowRootElements ctx (selectors ++ selectors')%list
  = JS.Return (elements ++ elements')%list.
Proof.
  intros H H'. destruct (useShadowRoot ctx) as [sr|] eqn:Hroot.
  - destruct (returned_elements ctx sr selectors elements Hroot H)
      as [Hsel ->].
    destruct (returned_elements ctx sr selectors' elements' Hroot H')
      as [Hsel' ->].
    rewrite <- flat_map_app.
    apply (elements_of_matches ctx sr (selectors ++ selectors')%list Hroot).
    apply Forall_app. split; assumption.
  - unfold useShadowRootElements in *. rewrite Hroot in *.
    injection H as <-. injection H' as <-. reflexivity.
Qed.
End SelectorFacts.

(** ** The contexts where no provider of theirs encloses the reader *)
Section DefaultFacts.
Context {TechDocsMetadata TechDocsEntityMetadata HTMLElement : Type}.
Context {Component ReactNode : Type}.
Let Element :=
  Element TechDocsMetadata TechDocsEntityMetadata HTMLElement
          Component ReactNode.
Let Contexts := Contexts TechDocsMetadata TechDocsEntityMetadata HTMLElement.

Lemma fold_provide_no_metadata (ancestors : list Element) (around : Contexts) :
  forallb (fun e => negb (isMetadataProvider e)) ancestors = true ->
  TechDocsMetadataContext (fold_left provide ancestors around)
  = TechDocsMetadataContext around.
Proof.
  revert around.
  induction ancestors as [|e rest IH]; intros around H; simpl in *.
  - reflexivity.
  - apply andb_prop in H as [He Hrest].
    rewrite (IH _ Hrest).
    destruct e; simpl in *; (reflexivity || discriminate He).
Qed.

Lemma fold_provide_no_entity (ancestors : list Element) (around : Contexts) :
  forallb (fun e => negb (isEntityProvider e)) ancestors = true ->
  TechDocsEntityContext (fold_left provide ancestors around)
  = TechDocsEntityContext around.
Proof.
  revert around.
  induction ancestors as [|e rest IH]; intros around H; simpl in *.
  - reflexivity.
  - apply andb_prop in H as [He Hrest].
    rewrite (IH _ Hrest).
    destruct e; simpl in *; (reflexivity || discriminate He).
Qed.

(** X5.  [useMetadata] returns undefined wherever no
    [TechDocsMetadataContext.Provider] encloses the caller, and
    [useEntityMetadata] wherever no [TechDocsEntityContext.Provider] does,
    whatever other elements enclose it. *)
Theorem useMetadata_outside_provider (ancestors : list Element) :
  (forallb (fun e => negb (isMetadataProvider e)) ancestors = true ->
   useMetadata (contextsUnder ancestors) = None) /\
  (forallb (fun e => negb (isEntityProvider e)) ancestors = true ->
   useEntityMetadata (contextsUnder ancestors) = None).
Proof.
  unfold useMetadata, useEntityMetadata, contextsUnder. split; intros H.
  - rewrite (fold_provide_no_metadata ancestors createContext H). reflexivity.
  - rewrite (fold_provide_no_entity ancestors createContext H). reflexivity.
Qed.

(** X6.  The setters read where no [TechDocsReaderPageProvider] encloses the
    caller do nothing: whatever is called on them, in whatever order, the
    cells of a provider are left as they are. *)
Theorem setters_outside_provider
    (ancestors : list Element) (calls : list (SetterCall HTMLElement))
    (hooks : ReaderPageHooks HTMLElement) :
  forallb (fun e => negb (isReaderPageProvider e)) ancestors = true ->
  fold_left (callSetter (useTechDocsReaderPage (contextsUnder ancestors)))
            calls hooks
  = hooks.
Proof.
  intros H. unfold useTechDocsReaderPage, contextsUnder.
  rewrite (fold_provide_other ancestors createContext H). simpl.
  induction calls as [|call calls IH]; simpl.
  - reflexivity.
  - destruct call; exact IH.
Qed.
End DefaultFacts.

(** ** The fetch providers, whatever the fetch comes to *)
Section MoreProviderFacts.
Context {TechDocsMetadata TechDocsEntityMetadata HTMLElement : Type}.
Context {Component ReactNode : Type}.
Let Element :=
  Element TechDocsMetadata TechDocsEntityMetadata HTMLElement
          Component ReactNode.
Let Contexts := Contexts TechDocsMetadata TechDocsEntityMetadata HTMLElement.

Variable app : AppContext Component.
Variable techdocsApi : TechDocsApi TechDocsMetadata TechDocsEntityMetadata.

Let MetadataProvider :
  CompoundEntityRef -> ReactNode -> option (AsyncFn TechDocsMetadata) ->
  Element * AsyncFn TechDocsMetadata :=
  TechDocsMetadataProvider app techdocsApi.
Let EntityProvider :
  CompoundEntityRef -> ReactNode -> option (AsyncFn TechDocsEntityMetadata) ->
  Element * AsyncFn TechDocsEntityMetadata :=
  TechDocsEntityProvider app techdocsApi.

Lemma MetadataProvider_rendered entityName children evs :
  let m := fetchRun MetadataProvider
                    (mount MetadataProvider entityName children) evs in
  rendered m
  = if existsb (settles 1) evs
    then elementOf app TechDocsMetadataContext_Provider
                   (ended (getTechDocsMetadata techdocsApi entityName))
                   (childrenProp m)
    else TechDocsMetadataContext_Provider None (childrenProp m).
Proof.
  apply (fetch_rendered app (getTechDocsMetadata techdocsApi)
           (TechDocsMetadataContext_Provider (HTMLElement := HTMLElement))).
Qed.

Lemma EntityProvider_rendered entityName children evs :
  let m := fetchRun EntityProvider
                    (mount EntityProvider entityName children) evs in
  rendered m
  = if existsb (settles 1) evs
    then elementOf app TechDocsEntityContext_Provider
                   (ended (getEntityMetadata techdocsApi entityName))
                   (childrenProp m)
    else TechDocsEntityContext_Provider None (childrenProp m).
Proof.
  apply (fetch_rendered app (getEntityMetadata techdocsApi)
           (TechDocsEntityContext_Provider (HTMLElement := HTMLElement))).
Qed.

(** X7.  For every entity reference, [TechDocsEntityProvider] renders its
    children below a context whose value is undefined until the fetch has
    ended and the value [getEntityMetadata] was fulfilled with from then on,
    also after renders with other references; [useEntityMetadata] below the
    provider returns that value. *)
Theorem fulfilled_provides_entity_metadata
    (around : Contexts) (entityName : CompoundEntityRef) (children : ReactNode)
    (metadata : TechDocsEntityMetadata) (evs : list (FetchEvent ReactNode)) :
  getEntityMetadata techdocsApi entityName = Fulfilled metadata ->
  let m := fetchRun EntityProvider
                    (mount EntityProvider entityName children) evs in
  let value := if existsb (settles 1) evs then Some metadata else None in
  rendered m = TechDocsEntityContext_Provider value (childrenProp m) /\
  renderedChildren (rendered m) = [childrenProp m] /\
  useEntityMetadata (provide around (rendered m)) = value.
Proof.
  intros Hfetch m value.
  assert (Hr : rendered m
               = TechDocsEntityContext_Provider value (childrenProp m)).
  { unfold m, value. rewrite EntityProvider_rendered, Hfetch.
    destruct (existsb (settles 1) evs); reflexivity. }
  rewrite Hr. repeat split.
Qed.

(** X8.  Until the promise of its fetch has ended, either provider renders
    its children below an undefined context value and never the not-found
    page, whether the fetch will be fulfilled or rejected and whatever
    renders happen meanwhile. *)
Theorem pending_renders_children
    (entityName : CompoundEntityRef) (children : ReactNode)
    (evs : list (FetchEvent ReactNode)) :
  existsb (settles 1) evs = false ->
  (let m := fetchRun MetadataProvider
                     (mount MetadataProvider entityName children) evs in
   phase (state (cells m)) = pending /\
   rendered m = TechDocsMetadataContext_Provider None (childrenProp m) /\
   renderedChildren (rendered m) = [childrenProp m]) /\
  (let m := fetchRun EntityProvider
                     (mount EntityProvider entityName children) evs in
   phase (state (cells m)) = pending /\
   rendered m = TechDocsEntityContext_Provider None (childrenProp m) /\
   renderedChildren (rendered m) = [childrenProp m]).
Proof.
  intros Hpending. split; intros m.
  - pose proof (fetchRun_mount app (getTechDocsMetadata techdocsApi)
                  (TechDocsMetadataContext_Provider
                   : option _ -> ReactNode -> Element)
                  entityName children evs) as [Hc _].
    pose proof (MetadataProvider_rendered entityName children evs) as Hr.
    fold m in Hr. rewrite Hpending in Hc, Hr.
    change (cells m = cellsOf (getTechDocsMetadata techdocsApi)
                              entityName false) in Hc.
    rewrite Hc, Hr. repeat split.
  - pose proof (fetchRun_mount app (getEntityMetadata techdocsApi)
                  (TechDocsEntityContext_Provider
                   : option _ -> ReactNode -> Element)
                  entityName children evs) as [Hc _].
    pose proof (EntityProvider_rendered entityName children evs) as Hr.
    fold m in Hr. rewrite Hpending in Hc, Hr.
    change (cells m = cellsOf (getEntityMetadata techdocsApi)
                              entityName false) in Hc.
    rewrite Hc, Hr. repeat split.
Qed.

(** X9.  A fetch rejected with a falsy value ends in failure, yet the test
    [!loading && error] does not see it: either provider keeps rendering its
    children below an undefined context value, before and after the
    rejection. *)
Theorem rejected_falsy_keeps_children
    (entityName : CompoundEntityRef) (children : ReactNode)
    (reason : JS.Value) (evs : list (FetchEvent ReactNode)) :
  JS.ToBoolean reason = false ->
  (getTechDocsMetadata techdocsApi entityName = Rejected reason ->
   let m := fetchRun MetadataProvider
                     (mount MetadataProvider entityName children) evs in
   rendered m = TechDocsMetadataContext_Provider None (childrenProp m) /\
   renderedChildren (rendered m) = [childrenProp m]) /\
  (getEntityMetadata techdocsApi entityName = Rejected reason ->
   let m := fetchRun EntityProvider
                     (mount EntityProvider entityName children) evs in
   rendered m = TechDocsEntityContext_Provider None (childrenProp m) /\
   renderedChildren (rendered m) = [childrenProp m]).
Proof.
  intros Hfalsy. split; intros Hfetch m.
  - assert (Hr : rendered m
                 = TechDocsMetadataContext_Provider None (childrenProp m)).
    { unfold m. rewrite MetadataProvider_rendered, Hfetch.
      destruct (existsb (settles 1) evs); [|reflexivity].
      unfold elementOf, errorOf; simpl. rewrite Hfalsy. reflexivity. }
    rewrite Hr. split; reflexivity.
  - assert (Hr : rendered m
                 = TechDocsEntityContext_Provider None (childrenProp m)).
    { unfold m. rewrite EntityProvider_rendered, Hfetch.
      destruct (existsb (settles 1) evs); [|reflexivity].
      unfold elementOf, errorOf; simpl. rewrite Hfalsy. reflexivity. }
    rewrite Hr. split; reflexivity.
Qed.

(** X10.  Each provider provides its own context only.  Below
    [TechDocsMetadataProvider], whatever its fetch has come to,
    [useEntityMetadata] and [useTechDocsReaderPage] read what they read
    around it; below [TechDocsEntityProvider] so do [useMetadata] and
    [useTechDocsReaderPage]; and below [TechDocsReaderPageProvider] so do
    [useMetadata] and [useEntityMetadata]. *)
Theorem providers_keep_other_contexts
    (around : Contexts) (entityName : CompoundEntityRef) (children : ReactNode)
    (evs : list (FetchEvent ReactNode))
    (cell : option (ReaderPageHooks HTMLElement)) :
  (let m := fetchRun MetadataProvider
                     (mount MetadataProvider entityName children) evs in
   useEntityMetadata (provide around (rendered m)) = useEntityMetadata around /\
   useTechDocsReaderPage (provide around (rendered m))
   = useTechDocsReaderPage around) /\
  (let m := fetchRun EntityProvider
                     (mount EntityProvider entityName children) evs in
   useMetadata (provide around (rendered m)) = useMetadata around /\
   useTechDocsReaderPage (provide around (rendered m))
   = useTechDocsReaderPage around) /\
  (let m := render (Component := Component) TechDocsReaderPageProvider
                   entityName children cell in
   useMetadata (provide around (rendered m)) = useMetadata around /\
   useEntityMetadata (provide around (rendered m)) = useEntityMetadata around).
Proof.
  split; [|split]; intros m.
  - unfold m. rewrite MetadataProvider_rendered.
    destruct (existsb (settles 1) evs); [|split; reflexivity].
    unfold elementOf. destruct (negb _ && _); split; reflexivity.
  - unfold m. rewrite EntityProvider_rendered.
    destruct (existsb (settles 1) evs); [|split; reflexivity].
    unfold elementOf. destruct (negb _ && _); split; reflexivity.
  - unfold m. destruct cell; split; reflexivity.
Qed.
End MoreProviderFacts.

(** ** The reader page over a run of setter calls *)
Section MoreReaderPageFacts.
Context {TechDocsMetadata TechDocsEntityMetadata HTMLElement : Type}.
Context {Component ReactNode : Type}.
Let Element :=
  Element TechDocsMetadata TechDocsEntityMetadata HTMLElement
          Component ReactNode.
Let Contexts := Contexts TechDocsMetadata TechDocsEntityMetadata HTMLElement.

Let Provider :
  CompoundEntityRef -> ReactNode -> option (ReaderPageHooks HTMLElement) ->
  Element * ReaderPageHooks HTMLElement :=
  TechDocsReaderPageProvider.

(** A render leaves each cell with the state it read and no update
    pending. *)
Lemma render_cells (around : Contexts) (ref : CompoundEntityRef)
    (children : ReactNode) (cell : option (ReaderPageHooks HTMLElement)) :
  let m := render Provider ref children cell in
  let v := useTechDocsReaderPage (provide around (rendered m)) in
  cells m
  = {| titleHook := {| memoizedState := title v; React.pending := [] |};
       subtitleHook := {| memoizedState := subtitle v; React.pending := [] |};
       shadowRootHook :=
         {| memoizedState := shadowRoot v; React.pending := [] |} |}.
Proof. destruct cell; reflexivity. Qed.

(** Setter calls queue their actions, each on its own cell. *)
Lemma fold_callSetter (around : Contexts) (ref : CompoundEntityRef)
    (children : ReactNode) (cell : option (ReaderPageHooks HTMLElement))
    (calls : list (SetterCall HTMLElement)) :
  forall hooks : ReaderPageHooks HTMLElement,
    let v :=
      useTechDocsReaderPage
        (provide around (rendered (render Provider ref children cell))) in
    fold_left (callSetter v) calls hooks
    = {| titleHook :=
           {| memoizedState := memoizedState (titleHook hooks);
              React.pending := (React.pending (titleHook hooks)
                          ++ titleActions calls)%list |};
         subtitleHook :=
           {| memoizedState := memoizedState (subtitleHook hooks);
              React.pending := (React.pending (subtitleHook hooks)
                          ++ subtitleActions calls)%list |};
         shadowRootHook :=
           {| memoizedState := memoizedState (shadowRootHook hooks);
              React.pending := (React.pending (shadowRootHook hooks)
                          ++ shadowRootActions calls)%list |} |}.
Proof.
  induction calls as [|call calls IH]; intros hooks v.
  - destruct hooks as [[t tp] [s sp] [r rp]]; simpl.
    rewrite !app_nil_r. reflexivity.
  - cbn [fold_left]. fold v in IH. rewrite IH.
    assert (Hcall : callSetter v hooks call
                    = match call with
                      | CallSetTitle a =>
                          {| titleHook := dispatchSetState a (titleHook hooks);
                             subtitleHook := subtitleHook hooks;
                             shadowRootHook := shadowRootHook hooks |}
                      | CallSetSubtitle a =>
                          {| titleHook := titleHook hooks;
                             subtitleHook :=
                               dispatchSetState a (subtitleHook hooks);
                             shadowRootHook := shadowRootHook hooks |}
                      | CallSetShadowRoot a =>
                          {| titleHook := titleHook hooks;
                             subtitleHook := subtitleHook hooks;
                             shadowRootHook :=
                               dispatchSetState a (shadowRootHook hooks) |}
                      end).
    { unfold v. destruct cell, call; reflexivity. }
    rewrite Hcall.
    destruct call; simpl; rewrite <- ?app_assoc; reflexivity.
Qed.

(** A provider that has just mounted provides the empty title and
    subtitle, no shadow root and the entity reference it was given, it
    renders its children, and [useShadowRootElements] below it returns the
    empty array for any strings. *)
Lemma TechDocsReaderPageProvider_mount
    (around : Contexts) (ref : CompoundEntityRef) (children : ReactNode)
    (selectors : list string) :
  let m := mount Provider ref children in
  let v := useTechDocsReaderPage (provide around (rendered m)) in
  title v = "" /\ subtitle v = "" /\ shadowRoot v = None /\
  entityName v = ref /\
  renderedChildren (rendered m) = [children] /\
  useShadowRoot (provide around (rendered m)) = None /\
  useShadowRootElements (provide around (rendered m)) selectors = JS.Return [].
Proof. repeat split. Qed.

(** X11.  Setter calls made between two renders take effect together at
    the second one: each field is the field of the first render with the
    actions passed to its setter applied in the order of the calls, values
    replacing it and functions mapping it, whatever was called on the other
    setters; with no call to its setter a field stays, also when the
    provider is rendered with other props; the entity reference is the one
    of the second render. *)
Theorem setter_calls_take_effect_in_order
    (around : Contexts) (ref ref' : CompoundEntityRef)
    (children children' : ReactNode)
    (cell : option (ReaderPageHooks HTMLElement))
    (calls : list (SetterCall HTMLElement)) :
  let m := render Provider ref children cell in
  let v := useTechDocsReaderPage (provide around (rendered m)) in
  let m' := render Provider ref' children'
                   (Some (fold_left (callSetter v) calls (cells m))) in
  let v' := useTechDocsReaderPage (provide around (rendered m')) in
  title v' = fold_left basicStateReducer (titleActions calls) (title v) /\
  subtitle v'
  = fold_left basicStateReducer (subtitleActions calls) (subtitle v) /\
  shadowRoot v'
  = fold_left basicStateReducer (shadowRootActions calls) (shadowRoot v) /\
  entityName v' = ref' /\
  renderedChildren (rendered m') = [children'].
Proof.
  intros m v m' v'.
  pose proof (fold_callSetter around ref children cell calls (cells m)) as Hq.
  pose proof (render_cells around ref children cell) as Hc.
  cbv zeta in Hq, Hc. fold m in Hq, Hc. fold v in Hq, Hc.
  unfold v', m'. rewrite Hq, Hc. repeat split.
Qed.

(** X12.  Once a descendant has passed a shadow root to [setShadowRoot],
    the next render lets [useShadowRootElements] return the matches of the
    selectors in that shadow root; once it has passed undefined, the empty
    array, even for strings that are no selectors. *)
Theorem setShadowRoot_then_elements
    (around : Contexts) (ref ref' : CompoundEntityRef)
    (children children' : ReactNode)
    (cell : option (ReaderPageHooks HTMLElement))
    (before : list (SetterCall HTMLElement))
    (sr : ShadowRoot HTMLElement) (selectors : list string) :
  let m := render Provider ref children cell in
  let v := useTechDocsReaderPage (provide around (rendered m)) in
  let next call :=
    provide around
      (rendered (render Provider ref' children'
                        (Some (fold_left (callSetter v) (before ++ [call])%list
                                         (cells m))))) in
  (Forall (isSelector sr) selectors ->
   useShadowRootElements (next (CallSetShadowRoot (Next (Some sr)))) selectors
   = JS.Return (flat_map (matchesOf sr) selectors)) /\
  useShadowRootElements (next (CallSetShadowRoot (Next None))) selectors
  = JS.Return [].
Proof.
  intros m v next.
  assert (Hroot : forall root,
             useShadowRoot (next (CallSetShadowRoot (Next root))) = root).
  { intros root.
    pose proof (fold_callSetter around ref children cell
                  (before ++ [CallSetShadowRoot (Next root)])%list (cells m))
      as Hq.
    cbv zeta in Hq. fold m in Hq. fold v in Hq.
    unfold next. rewrite Hq.
    unfold useShadowRoot, useTechDocsReaderPage. cbn.
    unfold shadowRootActions. rewrite flat_map_app, app_assoc, fold_left_app.
    reflexivity. }
  split.
  - intros Hsel.
    apply (elements_of_matches _ sr selectors (Hroot (Some sr)) Hsel).
  - unfold useShadowRootElements. rewrite (Hroot None). reflexivity.
Qed.
End MoreReaderPageFacts.

(** ** The further properties on the sample page and backend *)

Lemma useShadowRootElements_throws_witness :
  useShadowRoot Sample.attached = Some (Sample.shadowRootOver Sample.page) /\
  Forall (isSelector (Sample.shadowRootOver Sample.page)) ["a"] /\
  querySelectorAll (Sample.shadowRootOver Sample.page) ""
  = JS.Throw (JS.Object 0) /\
  useShadowRootElements Sample.attached ["a"; ""; "p"] = JS.Throw (JS.Object 0).
Proof.
  assert (Hsel : Forall (isSelector (Sample.shadowRootOver Sample.page)) ["a"]).
  { repeat constructor; eexists; reflexivity. }
  split; [reflexivity|split; [exact Hsel|split; [reflexivity|]]].
  apply (useShadowRootElements_throws
           Sample.attached (Sample.shadowRootOver Sample.page)
           ["a"] ["p"] "" (JS.Object 0) eq_refl Hsel eq_refl).
Defined.

Lemma useShadowRootElements_returns_iff_witness :
  useShadowRoot Sample.attached = Some (Sample.shadowRootOver Sample.page) /\
  ((exists elements,
       useShadowRootElements Sample.attached ["a"; "p"] = JS.Return elements)
   <-> Forall (isSelector (Sample.shadowRootOver Sample.page)) ["a"; "p"]).
Proof.
  split; [reflexivity|].
  apply (useShadowRootElements_returns_iff
           Sample.attached (Sample.shadowRootOver Sample.page) ["a"; "p"]).
  reflexivity.
Defined.

Lemma useShadowRootElements_In_witness :
  let first := {| Sample.tag := "a"; Sample.position := 1 |} in
  let third := {| Sample.tag := "a"; Sample.position := 3 |} in
  useShadowRootElements Sample.attached ["h1"; "a"]
  = JS.Return [first; third] /\
  (In third [first; third] <->
   exists selector nodeList,
     In selector ["h1"; "a"] /\
     querySelectorAll (Sample.shadowRootOver Sample.page) selector
     = JS.Return nodeList /\
     In third nodeList).
Proof.
  intros first third.
  split; [reflexivity|].
  apply (useShadowRootElements_In
           Sample.attached (Sample.shadowRootOver Sample.page)
           ["h1"; "a"] [first; third] eq_refl eq_refl third).
Defined.

Lemma useShadowRootElements_app_witness :
  let first := {| Sample.tag := "a"; Sample.position := 1 |} in
  let second := {| Sample.tag := "p"; Sample.position := 2 |} in
  let third := {| Sample.tag := "a"; Sample.position := 3 |} in
  useShadowRootElements Sample.attached ["p"] = JS.Return [second] /\
  useShadowRootElements Sample.attached ["a"; "p"]
  = JS.Return [first; third; second] /\
  useShadowRootElements Sample.attached ["p"; "a"; "p"]
  = JS.Return [second; first; third; second].
Proof.
  intros first second third.
  split; [reflexivity|split; [reflexivity|]].
  apply (useShadowRootElements_app
           Sample.attached ["p"] ["a"; "p"] [second] [first; third; second]);
    reflexivity.
Defined.

Lemma useMetadata_outside_provider_witness :
  let ancestors :
    list (Element string string Sample.Node string string) :=
    [ Create "Page";
      TechDocsReaderPageContext_Provider defaultTechDocsReaderPageValue
                                         "addons" ] in
  forallb (fun e => negb (isMetadataProvider e)) ancestors = true /\
  forallb (fun e => negb (isEntityProvider e)) ancestors = true /\
  useMetadata (contextsUnder ancestors) = None /\
  useEntityMetadata (contextsUnder ancestors) = None.
Proof.
  intros ancestors.
  destruct (useMetadata_outside_provider ancestors) as [HM HE].
  split; [reflexivity|split; [reflexivity|split]].
  - apply HM. reflexivity.
  - apply HE. reflexivity.
Defined.

Lemma setters_outside_provider_witness :
  let ancestors :
    list (Element string string Sample.Node string string) :=
    [ TechDocsMetadataContext_Provider (Some "site of docs") "addons" ] in
  let calls :=
    [ CallSetTitle (Next "Docs"); CallSetShadowRoot (Next None);
      CallSetSubtitle (Updater (fun s => s ++ "!")) ] in
  forallb (fun e => negb (isReaderPageProvider e)) ancestors = true /\
  fold_left (callSetter (useTechDocsReaderPage (contextsUnder ancestors)))
            calls (cells Sample.readerPage)
  = cells Sample.readerPage.
Proof.
  intros ancestors calls.
  split; [reflexivity|].
  apply (setters_outside_provider ancestors calls (cells Sample.readerPage)).
  reflexivity.
Defined.

Lemma fulfilled_provides_entity_metadata_witness :
  getEntityMetadata Sample.answering Sample.docs = Fulfilled "entity docs" /\
  (let P := TechDocsEntityProvider (HTMLElement := Sample.Node)
              Sample.app Sample.answering in
   let m := fetchRun P (mount P Sample.docs "addons")
                     [Settles 1; Rerender Sample.other "addons"] in
   rendered m = TechDocsEntityContext_Provider (Some "entity docs") "addons" /\
   renderedChildren (rendered m) = ["addons"] /\
   useEntityMetadata (provide createContext (rendered m))
   = Some "entity docs").
Proof.
  split; [reflexivity|].
  apply (fulfilled_provides_entity_metadata
           (HTMLElement := Sample.Node) Sample.app Sample.answering
           createContext Sample.docs "addons" "entity docs"
           [Settles 1; Rerender Sample.other "addons"]).
  reflexivity.
Defined.

Lemma pending_renders_children_witness :
  let evs := [Rerender Sample.other "more addons"; Settles 2] in
  existsb (settles 1) evs = false /\
  (let P := TechDocsMetadataProvider (HTMLElement := Sample.Node)
              Sample.app (Sample.rejecting (JS.Object 7)) in
   rendered (fetchRun P (mount P Sample.docs "addons") evs)
   = TechDocsMetadataContext_Provider None "more addons").
Proof.
  intros evs.
  split; [reflexivity|].
  destruct (pending_renders_children
              (HTMLElement := Sample.Node)
              Sample.app (Sample.rejecting (JS.Object 7))
              Sample.docs "addons" evs eq_refl)
    as [(_ & Hr & _) _].
  exact Hr.
Defined.

Lemma rejected_falsy_keeps_children_witness :
  JS.ToBoolean (JS.String "") = false /\
  (let P := TechDocsEntityProvider (HTMLElement := Sample.Node)
              Sample.app (Sample.rejecting (JS.String "")) in
   rendered (fetchRun P (mount P Sample.docs "addons") [Settles 1])
   = TechDocsEntityContext_Provider None "addons").
Proof.
  split; [reflexivity|].
  destruct (rejected_falsy_keeps_children
              (HTMLElement := Sample.Node)
              Sample.app (Sample.rejecting (JS.String ""))
              Sample.docs "addons" (JS.String "") [Settles 1] eq_refl)
    as [_ HE].
  apply HE. reflexivity.
Defined.

Lemma setShadowRoot_then_elements_witness :
  let P := TechDocsReaderPageProvider
             (TechDocsMetadata := string) (TechDocsEntityMetadata := string)
             (HTMLElement := Sample.Node) (Component := string) in
  let m := mount P Sample.docs "addons" in
  let v := useTechDocsReaderPage (provide createContext (rendered m)) in
  let hooks :=
    fold_left
      (callSetter v)
      [CallSetTitle (Next "Docs");
       CallSetShadowRoot (Next (Some (Sample.shadowRootOver Sample.page)))]
      (cells m) in
  Forall (isSelector (Sample.shadowRootOver Sample.page)) ["a"] /\
  useShadowRootElements
    (provide createContext
             (rendered (render P Sample.other "addons" (Some hooks))))
    ["a"]
  = JS.Return [ {| Sample.tag := "a"; Sample.position := 1 |};
                {| Sample.tag := "a"; Sample.position := 3 |} ].
Proof.
  intros P m v hooks.
  assert (Hsel : Forall (isSelector (Sample.shadowRootOver Sample.page)) ["a"]).
  { repeat constructor; eexists; reflexivity. }
  split; [exact Hsel|].
  destruct (setShadowRoot_then_elements
              (TechDocsMetadata := string) (TechDocsEntityMetadata := string)
              (Component := string)
              createContext Sample.docs Sample.other "addons" "addons" None
              [CallSetTitle (Next "Docs")]
              (Sample.shadowRootOver Sample.page) ["a"])
    as [Hattached _].
  apply (Hattached Hsel).
Defined.
